(** * Augmentation runes: a shallow embedding of [main.py] and [schemas.py]

    The tool reads rune definitions, builds a prompt per incomplete record,
    asks a completion endpoint, parses the reply and lets an operator decide
    what reaches the clipboard.  This development embeds the functions of
    [main.py] and proves properties of them.

    Conventions of the embedding.
    - A Python [str] is a [string]: a sequence of characters, each an 8-bit
      code point (the range U+0000..U+00FF).  Literals in this file are
      ASCII; the accented letters of the prompt template are built from
      their code points.
    - A Python [int] is a [Z].
    - [Optional[list[str]]] is [option (list string)].
    - The operator and the completion endpoint are oracles; every call of
      [print], [inquirer.confirm], [openai.ChatCompletion.create] and
      [pyperclip.copy] is recorded in a log.
    - A reply of the endpoint is a [Response] already: the validation that
      the constructor of [Response] performs on the raw reply is taken to
      succeed.  [print],
      [inquirer.confirm] and [pyperclip.copy] do not raise.
    - [assert] statements are executed (the interpreter runs without [-O]).
    - [get_args] and [load_json_file] read the command line and a file;
      [main] is embedded from the loaded list of rune definitions on.
    - The [while True] loop of [ask_openai] has no bound.  Its embedding
      takes a number of calls it may make ([fuel]) and answers [Retrying]
      when the endpoint has timed out that often. *)

From Stdlib Require Import String Ascii List ZArith Lia Bool Arith DecimalString.
From Equations Require Import Equations.
Import ListNotations.

Local Open Scope list_scope.
Local Open Scope string_scope.

(** ** Python strings *)

Module Py.

(** Characters that the file needs by code point. *)
Definition LF : ascii := ascii_of_nat 10.
Definition DOT : ascii := ascii_of_nat 46.
Definition nl : string := String LF "".
Definition dquote : string := String (ascii_of_nat 34) "".
Definition a_acute : string := String (ascii_of_nat 225) "".
Definition o_acute : string := String (ascii_of_nat 243) "".

(** [str.isspace] on one character of the range: TAB..CR, FS..US, SPACE,
    NEL (U+0085) and NBSP (U+00A0). *)
Definition isspace (c : ascii) : bool :=
  let n := nat_of_ascii c in
  (((9 <=? n) && (n <=? 13)) || ((28 <=? n) && (n <=? 32))
   || (n =? 133) || (n =? 160))%nat.

(** The class [\d] on one character of the range: 0..9. *)
Definition isdigit (c : ascii) : bool :=
  let n := nat_of_ascii c in ((48 <=? n) && (n <=? 57))%nat.

(** [bool(s)]: a string is truthy when it is not empty. *)
Definition truthy (s : string) : bool :=
  match s with "" => false | String _ _ => true end.

(** [s.split(sep)] for a separator of one character. *)
Fixpoint split (sep : ascii) (s : string) : list string :=
  match s with
  | "" => [""]
  | String c s' =>
      if Ascii.eqb c sep then "" :: split sep s'
      else match split sep s' with
           | piece :: pieces => String c piece :: pieces
           | [] => [String c ""]
           end
  end.

(** [sep.join(pieces)]. *)
Definition join (sep : string) (pieces : list string) : string :=
  String.concat sep pieces.

Fixpoint lstrip (s : string) : string :=
  match s with
  | "" => ""
  | String c s' => if isspace c then lstrip s' else s
  end.

Fixpoint rstrip (s : string) : string :=
  match s with
  | "" => ""
  | String c s' =>
      match rstrip s' with
      | "" => if isspace c then "" else String c ""
      | r => String c r
      end
  end.

(** [s.strip()] *)
Definition strip (s : string) : string := rstrip (lstrip s).

(** [s.startswith(p)] *)
Definition startswith (p s : string) : bool := String.prefix p s.

(** [s[n:]] *)
Fixpoint drop (n : nat) (s : string) : string :=
  match n, s with
  | O, _ => s
  | S _, "" => ""
  | S n', String _ s' => drop n' s'
  end.

(** [needle in s] *)
Fixpoint contains (needle s : string) : bool :=
  String.prefix needle s
  || match s with
     | "" => false
     | String _ s' => contains needle s'
     end.

(** [str(n)] for an [int]. *)
Definition str_of_int (n : Z) : string :=
  NilZero.string_of_int (Z.to_int n).

Definition str_of_nat (n : nat) : string :=
  NilZero.string_of_uint (Nat.to_uint n).

End Py.

(** ** The pattern [REGEX_ITEM = re.compile(r'\d+\.')] *)

Module REGEX_ITEM.
Import Py.

Definition inspect {A} (a : A) : {b : A | a = b} := exist _ a eq_refl.

(** The greedy [\d+]: the rest of the text after its longest run of
    digits. *)
Fixpoint skip_digits (s : string) : string :=
  match s with
  | "" => ""
  | String c s' => if isdigit c then skip_digits s' else s
  end.

(** [REGEX_ITEM.match(s)]: a match at the first position, as the text
    that follows it.  [\d+] takes the longest run of digits; giving a
    digit back cannot help, because the character after a shorter run is
    a digit and the pattern wants a period there. *)
Definition match_ (s : string) : option string :=
  match s with
  | "" => None
  | String c s' =>
      if isdigit c then
        match skip_digits s' with
        | String d rest => if Ascii.eqb d DOT then Some rest else None
        | "" => None
        end
      else None
  end.

(** [REGEX_ITEM.sub('', s)]: the scan tries a match at each position from
    the left; a match is deleted and the scan goes on after it, otherwise
    the character is kept and the scan moves one position. *)
Equations? sub_empty (s : string) : string by wf (String.length s) lt :=
  sub_empty "" := "";
  sub_empty (String c s') with inspect (match_ (String c s')) := {
    | exist _ (Some rest) _ := sub_empty rest;
    | exist _ None _ := String c (sub_empty s') }.
Proof.
  assert (Hskip : forall t, String.length (skip_digits t) <= String.length t).
  { induction t as [|x t IH]; cbn [skip_digits String.length]; [lia|].
    destruct (isdigit x); cbn [String.length]; lia. }
  cbn [match_] in e. destruct (isdigit c); [|discriminate].
  specialize (Hskip s').
  destruct (skip_digits s') as [|d t]; [discriminate|].
  destruct (Ascii.eqb d DOT); [|discriminate].
  injection e as <-. cbn [String.length] in *. lia.
Qed.

(** [REGEX_ITEM.search(s) is not None] *)
Fixpoint search (s : string) : bool :=
  match match_ s with
  | Some _ => true
  | None => match s with
            | "" => false
            | String _ s' => search s'
            end
  end.

End REGEX_ITEM.

(** ** [parse_response] and [create_string_from_list] *)

Definition parse_response (response : string) : list string :=
  let options := Py.split Py.LF response in
  map (fun x => Py.strip (REGEX_ITEM.sub_empty x))
      (filter (fun x => Py.truthy (Py.strip x)) options).

Definition get_only_the_rune_name (rune_name : string) : string :=
  if Py.startswith "RUNA" rune_name
  then Py.strip (Py.drop (String.length "RUNA") rune_name)
  else rune_name.

(** The loop of [create_string_from_list]: [n] is [len(items)], [i] the
    index that [enumerate] gives, [copied] the text built so far. *)
Fixpoint create_string_loop (n : Z) (i : Z) (items : list string)
    (copied : string) : string :=
  match items with
  | [] => copied
  | item :: items' =>
      let copied := copied ++ Py.dquote ++ item ++ Py.dquote in
      let copied := if (i <? n - 1)%Z then copied ++ "," else copied in
      let copied := copied ++ Py.nl in
      create_string_loop n (i + 1)%Z items' copied
  end.

Definition create_string_from_list (items : list string) : string :=
  create_string_loop (Z.of_nat (List.length items)) 0%Z items "".

(** ** [schemas.py] *)

Module Role.
Inductive t := user | system | assistant.
End Role.

Module RuneType.
Inductive t := normal | invert.
End RuneType.

Module RuneDefinition.
Record t := mk {
  rune_name : string;
  description : string;
  type : RuneType.t;
  alternatives : option (list string);
  summaries : option (list string) }.
End RuneDefinition.

Module Message.
Record t := mk { role : Role.t; content : string }.
End Message.

Module FinishReason.
Inductive t := stop | length | content_filter.
End FinishReason.

Module Choice.
Record t := mk {
  message : Message.t;
  finish_reason : option FinishReason.t;
  index : Z }.
End Choice.

Module Usage.
Record t := mk {
  prompt_tokens : Z;
  completion_tokens : Z;
  total_tokens : Z }.
End Usage.

Module Response.
Record t := mk {
  id : string;
  object : string;
  created : Z;
  model : string;
  usage : Usage.t;
  choices : list Choice.t }.
End Response.

Module Prompt.
Record t := mk { role : Role.t; content : string }.
End Prompt.

Module Processment.
Record t := mk {
  rune_definition : RuneDefinition.t;
  total_tokens : Z }.

(** [Processment(rune_definition=rd)]: [total_tokens] defaults to 0. *)
Definition new (rd : RuneDefinition.t) : t := mk rd 0.

(** [processment.total_tokens += n] *)
Definition add_tokens (n : Z) (p : t) : t :=
  mk (rune_definition p) (total_tokens p + n).
End Processment.

(** ** The outside world

    What the program does to its surroundings is a log of calls; what the
    surroundings answer comes from two oracles, indexed by the number of the
    call. *)

Inductive event :=
| Print (text : string)
| Confirm (message : string) (default : bool) (answer : bool)
| Create (model : string) (messages : list Prompt.t)
| Copy (text : string).

(** What one call of [openai.ChatCompletion.create] does: it returns a
    reply, raises [openai.error.Timeout], or raises something else. *)
Inductive reply :=
| Completed (raw_response : Response.t)
| Timeout (err : string)
| Failure (err : string).

Record Env := mkEnv {
  operator : nat -> bool;
  endpoint : nat -> reply }.

Record World := mkWorld {
  log : list event;
  confirmed_so_far : nat;
  created_so_far : nat }.

Definition start : World := mkWorld [] 0 0.

Inductive exn :=
| OpenAIError (err : string)
| ValueError
| AssertionError
| TypeError.

(** A computation ends with a value, ends with an exception, or is still
    inside the retry loop of [ask_openai] when its fuel is spent. *)
Inductive result (A : Type) :=
| Ret (a : A) (w : World)
| Raise (e : exn) (w : World)
| Retrying.
Arguments Ret {A} a w.
Arguments Raise {A} e w.
Arguments Retrying {A}.

Definition M (A : Type) : Type := World -> result A.

Definition ret {A} (a : A) : M A := fun w => Ret a w.

Definition raise {A} (e : exn) : M A := fun w => Raise e w.

Definition bind {A B} (m : M A) (k : A -> M B) : M B :=
  fun w => match m w with
           | Ret a w' => k a w'
           | Raise e w' => Raise e w'
           | Retrying => Retrying
           end.

Declare Scope py_scope.
Delimit Scope py_scope with py.
Notation "x <- m ;; k" := (bind m (fun x => k))
  (at level 61, m at next level, right associativity) : py_scope.
Notation "m ;; k" := (bind m (fun _ => k))
  (at level 61, right associativity) : py_scope.
Local Open Scope py_scope.

Definition emit (e : event) : M unit :=
  fun w => Ret tt (mkWorld (log w ++ [e])%list (confirmed_so_far w) (created_so_far w)).

(** [print(text)] *)
Definition print (text : string) : M unit := emit (Print text).

(** [pyperclip.copy(text)] *)
Definition pyperclip_copy (text : string) : M unit := emit (Copy text).

(** [for i, x in enumerate(xs): state = body(i, x, state)] *)
Fixpoint for_enumerate {A St : Type} (body : nat -> A -> St -> M St)
    (i : nat) (xs : list A) (state : St) : M St :=
  match xs with
  | [] => ret state
  | x :: xs' => state' <- body i x state ;; for_enumerate body (S i) xs' state'
  end.

(** [bool(xs)] for an [Optional[list]]: [None] and [[]] are falsy. *)
Definition truthy_list {A} (xs : option (list A)) : bool :=
  match xs with
  | Some (_ :: _) => true
  | _ => false
  end.

(** ** Prompt templates *)

(** [PROMPT_TO_GENERATE.format(rune_name=.., invert=.., text=..)] *)
Definition PROMPT_TO_GENERATE (rune_name invert text : string) : string :=
  "Escribe 10 p" ++ Py.a_acute ++ "rrafos que sean variaci" ++ Py.o_acute
  ++ "n del siguiente p" ++ Py.a_acute ++ "rrafo:" ++ Py.nl
  ++ Py.nl
  ++ "la runa " ++ rune_name ++ invert ++ ": " ++ text ++ Py.nl
  ++ Py.nl
  ++ "Pero no te salgas de la runa " ++ rune_name ++ invert ++ Py.nl.

(** [PROMPT_TO_SUMMARY.format(text=..)] *)
Definition PROMPT_TO_SUMMARY (text : string) : string :=
  "Resume bien resumido este p" ++ Py.a_acute ++ "rrafo sin agregar nada m"
  ++ Py.a_acute ++ "s: " ++ text.

(** ** The program *)

Section Program.

Variable env : Env.

(** [inquirer.confirm(message, default=default)] *)
Definition inquirer_confirm (message : string) (default : bool) : M bool :=
  fun w =>
    let answer := operator env (confirmed_so_far w) in
    Ret answer (mkWorld (log w ++ [Confirm message default answer])%list
                        (S (confirmed_so_far w)) (created_so_far w)).

(** One call of [openai.ChatCompletion.create(model=.., messages=..)]. *)
Definition ChatCompletion_create (model : string) (messages : list Prompt.t)
  : World -> reply * World :=
  fun w =>
    (endpoint env (created_so_far w),
     mkWorld (log w ++ [Create model messages])%list
             (confirmed_so_far w) (S (created_so_far w))).

(** The [while True] loop of [ask_openai]; [fuel] bounds the number of
    calls made before the embedding gives up and answers [Retrying]. *)
Fixpoint ask_openai_loop (fuel : nat) (prompt_messages : list Prompt.t)
  : M Response.t :=
  match fuel with
  | O => fun _ => Retrying
  | S fuel' =>
      fun w =>
        match ChatCompletion_create "gpt-3.5-turbo" prompt_messages w with
        | (Completed raw_response, w') => Ret raw_response w'
        | (Timeout err, w') =>
            (print err ;; ask_openai_loop fuel' prompt_messages) w'
        | (Failure err, w') => Raise (OpenAIError err) w'
        end
  end.

Definition ask_openai (fuel : nat) (prompt : string) : M Response.t :=
  let prompt_messages :=
    [ Prompt.mk Role.system "You are a helpful assistant.";
      Prompt.mk Role.user prompt ] in
  ask_openai_loop fuel prompt_messages.

(** [choice, = response.choices] *)
Definition unpack_single {A} (xs : list A) : M A :=
  match xs with
  | [x] => ret x
  | _ => raise ValueError
  end.

(** The body of the loop of [process_summaries]; the loop carries the list
    [summaries] and the processment. *)
Definition process_summaries_body (fuel : nat) (i : nat) (alternative : string)
    (state : list string * Processment.t) : M (list string * Processment.t) :=
  let '(summaries, processment) := state in
  let prompt := PROMPT_TO_SUMMARY alternative in
  print (Py.str_of_nat (i + 1) ++ ": [cyan]" ++ prompt ++ "[/]" ++ Py.nl ++ Py.nl) ;;
  confirmed <- inquirer_confirm "Ask to OpenAI for this prompt?" false ;;
  if negb confirmed then
    print "[red]Ignored[/]" ;;
    ret (summaries, processment)
  else
    response <- ask_openai fuel prompt ;;
    print ("Usage tokens: [bold blue]"
           ++ Py.str_of_int (Usage.total_tokens (Response.usage response))
           ++ "[/]") ;;
    let processment :=
      Processment.add_tokens (Usage.total_tokens (Response.usage response))
                             processment in
    choice <- unpack_single (Response.choices response) ;;
    let content := Message.content (Choice.message choice) in
    print (content ++ Py.nl) ;;
    will_add <- inquirer_confirm "Add?" true ;;
    summaries <-
      (if will_add then
         print ("[green]Added![/]" ++ Py.nl) ;;
         ret (summaries ++ [content])%list
       else ret summaries) ;;
    ret ((summaries ++ [content])%list, processment).

Definition print_summary (i : nat) (summary : string) (_ : unit) : M unit :=
  print (Py.str_of_nat (i + 1) ++ " - " ++ summary ++ Py.nl).

Definition process_summaries (fuel : nat) (processment : Processment.t)
  : M Processment.t :=
  match RuneDefinition.alternatives (Processment.rune_definition processment) with
  | None => raise TypeError
  | Some alternatives =>
      state <- for_enumerate (process_summaries_body fuel) 0 alternatives
                             ([], processment) ;;
      let '(summaries, processment) := state in
      print "Summaries:" ;;
      for_enumerate print_summary 0 summaries tt ;;
      will_copy <- inquirer_confirm "Copy?" true ;;
      (if will_copy then
         let copied := create_string_from_list summaries in
         (if (0 <? Z.of_nat (String.length copied))%Z then ret tt
          else raise AssertionError) ;;
         pyperclip_copy copied ;;
         print ("[green]Copied![/]" ++ Py.nl)
       else ret tt) ;;
      ret processment
  end.

Definition print_item (i : nat) (item : string) (_ : unit) : M unit :=
  print (Py.str_of_nat (i + 1) ++ " - " ++ item) ;;
  print "".

(** The prompt that [process_alternatives] builds. *)
Definition alternatives_prompt (rd : RuneDefinition.t) : string :=
  let rune_name := get_only_the_rune_name (RuneDefinition.rune_name rd) in
  PROMPT_TO_GENERATE rune_name
    (match RuneDefinition.type rd with
     | RuneType.invert => " invertida"
     | RuneType.normal => ""
     end)
    (RuneDefinition.description rd).

Definition process_alternatives (fuel : nat) (processment : Processment.t)
  : M Processment.t :=
  let prompt := alternatives_prompt (Processment.rune_definition processment) in
  print ("[cyan]" ++ prompt ++ "[/]" ++ Py.nl ++ Py.nl) ;;
  confirmed <- inquirer_confirm "Ask to OpenAI for this prompt?" false ;;
  if negb confirmed then
    print "[red]Ignored[/]" ;;
    ret processment
  else
    response <- ask_openai fuel prompt ;;
    print ("Usage tokens: [bold blue]"
           ++ Py.str_of_int (Usage.total_tokens (Response.usage response))
           ++ "[/]") ;;
    let processment :=
      Processment.add_tokens (Usage.total_tokens (Response.usage response))
                             processment in
    choice <- unpack_single (Response.choices response) ;;
    let content := Message.content (Choice.message choice) in
    let items := parse_response content in
    print "Items:" ;;
    for_enumerate print_item 0 items tt ;;
    will_copy <- inquirer_confirm "Copy?" true ;;
    (if will_copy then
       let copied := create_string_from_list items in
       pyperclip_copy copied ;;
       print ("[green]Copied![/]" ++ Py.nl)
     else ret tt) ;;
    ret processment.

(** The body of the loop of [main]; the loop carries [total_tokens]. *)
Definition main_body (fuel : nat) (i : nat) (rune_definition : RuneDefinition.t)
    (total_tokens : Z) : M Z :=
  let processment := Processment.new rune_definition in
  if truthy_list (RuneDefinition.alternatives rune_definition)
     && truthy_list (RuneDefinition.summaries rune_definition)
  then ret total_tokens
  else
    print ("[bold green]" ++ Py.str_of_nat i ++ "[/] -:" ++ Py.nl) ;;
    processment <-
      (if negb (truthy_list (RuneDefinition.alternatives
                               (Processment.rune_definition processment)))
       then process_alternatives fuel processment
       else ret processment) ;;
    processment <-
      (if truthy_list (RuneDefinition.alternatives
                         (Processment.rune_definition processment))
          && negb (truthy_list (RuneDefinition.summaries
                                  (Processment.rune_definition processment)))
       then process_summaries fuel processment
       else ret processment) ;;
    let total_tokens := (total_tokens + Processment.total_tokens processment)%Z in
    print ("tokens: [bold blue]" ++ Py.str_of_int total_tokens ++ "[/]") ;;
    ret total_tokens.

(** [main], from the loaded rune definitions on; it returns the run-wide
    [total_tokens] that its last line prints. *)
Definition main (fuel : nat) (rune_definitions : list RuneDefinition.t) : M Z :=
  print (Py.str_of_nat (List.length rune_definitions) ++ " loaded") ;;
  total_tokens <- for_enumerate (main_body fuel) 0 rune_definitions 0%Z ;;
  print ("tokens: [bold blue]" ++ Py.str_of_int total_tokens ++ "[/]") ;;
  ret total_tokens.

End Program.

(** * Vocabulary of the statements *)

(** ** Texts *)

(** Every character of the text is a digit. *)
Fixpoint digits_only (s : string) : bool :=
  match s with
  | "" => true
  | String c s' => Py.isdigit c && digits_only s'
  end.

(** [c in s] for one character. *)
Fixpoint mentions (c : ascii) (s : string) : bool :=
  match s with
  | "" => false
  | String x s' => Ascii.eqb x c || mentions c s'
  end.

(** The last character of the text is a digit. *)
Fixpoint ends_with_digit (s : string) : bool :=
  match s with
  | "" => false
  | String c "" => Py.isdigit c
  | String _ s' => ends_with_digit s'
  end.

(** ** The export format in the words of the specification *)

(** Every item in double quotes on a line of its own, a comma after every
    line but the last. *)
Fixpoint quoted_lines (items : list string) : string :=
  match items with
  | [] => ""
  | [item] => Py.dquote ++ item ++ Py.dquote ++ Py.nl
  | item :: rest =>
      Py.dquote ++ item ++ Py.dquote ++ "," ++ Py.nl ++ quoted_lines rest
  end.

(** ** Numbered lists and the parser in the words of the specification *)

(** The items with their numbers: [N. item], counting from [i]. *)
Fixpoint numbered (i : nat) (items : list string) : list string :=
  match items with
  | [] => []
  | item :: items' => (Py.str_of_nat i ++ ". " ++ item) :: numbered (S i) items'
  end.

(** The numbered items, counted from 1, joined with line feeds. *)
Definition numbered_text (items : list string) : string :=
  Py.join Py.nl (numbered 1 items).

(** The round trip as the specification states it: no item holds a line
    feed. *)
Definition numbered_round_trip : Prop :=
  forall items,
    (forall x, In x items -> Py.contains Py.nl x = false) ->
    parse_response (numbered_text items) = map Py.strip items.

(** The parser in the words of the specification: of each line that is not
    blank only a marker at its start is removed. *)
Definition strip_leading_marker (line : string) : string :=
  match REGEX_ITEM.match_ (Py.lstrip line) with
  | Some rest => rest
  | None => line
  end.

(** Split on line feeds, drop the blank lines, remove the leading marker
    of each line and strip it. *)
Definition parse_items_as_specified (response : string) : list string :=
  map (fun x => Py.strip (strip_leading_marker x))
      (filter (fun x => Py.truthy (Py.strip x)) (Py.split Py.LF response)).

(** The claim that [parse_response] is that parser. *)
Definition only_leading_marker_removed : Prop :=
  forall response, parse_response response = parse_items_as_specified response.

(** ** The prompt template in pieces *)

(** The fixed text of the template before the first name and between the
    description and the second name. *)
Definition prompt_head : string :=
  "Escribe 10 p" ++ Py.a_acute ++ "rrafos que sean variaci" ++ Py.o_acute
  ++ "n del siguiente p" ++ Py.a_acute ++ "rrafo:" ++ Py.nl ++ Py.nl
  ++ "la runa ".

(** The fixed text between the description and the second name. *)
Definition prompt_middle : string :=
  Py.nl ++ Py.nl ++ "Pero no te salgas de la runa ".

(** A record of kind [normal]. *)
Definition normal_rune (rune_name description : string)
    (alternatives summaries : option (list string)) : RuneDefinition.t :=
  RuneDefinition.mk rune_name description RuneType.normal alternatives summaries.

(** A record of kind [invert]. *)
Definition inverted_rune (rune_name description : string)
    (alternatives summaries : option (list string)) : RuneDefinition.t :=
  RuneDefinition.mk rune_name description RuneType.invert alternatives summaries.

(** The claim that the prompt of a normal rune never holds the word. *)
Definition normal_prompt_without_invertida : Prop :=
  forall rune_name description alternatives summaries,
    Py.contains "invertida"
      (alternatives_prompt
         (normal_rune rune_name description alternatives summaries))
    = false.

(** ** Worlds *)

(** A step that only writes to the log. *)
Definition logged (e : event) (w : World) : World :=
  mkWorld (log w ++ [e])%list (confirmed_so_far w) (created_so_far w).

(** The world after the operator has answered one question. *)
Definition answered (env : Env) (message : string) (default : bool) (w : World)
  : World :=
  mkWorld (log w ++ [Confirm message default (operator env (confirmed_so_far w))])%list
          (S (confirmed_so_far w)) (created_so_far w).

(** The world in which [process_summaries] calls [ask_openai] for the
    alternative of index [i]: the prompt has been printed and the operator
    has been asked whether to send it. *)
Definition asked_for_summary (env : Env) (i : nat) (alternative : string)
    (w : World) : World :=
  answered env "Ask to OpenAI for this prompt?" false
    (logged (Print (Py.str_of_nat (i + 1) ++ ": [cyan]"
                    ++ PROMPT_TO_SUMMARY alternative ++ "[/]" ++ Py.nl ++ Py.nl))
            w).

(** The two messages that [ask_openai] sends for a prompt. *)
Definition ask_messages (prompt : string) : list Prompt.t :=
  [ Prompt.mk Role.system "You are a helpful assistant.";
    Prompt.mk Role.user prompt ].

(** What [ask_openai] leaves in the log when the endpoint times out with
    the errors [errs], in this order, before it answers: the same request
    once per timeout, each followed by the print of its error, and the same
    request once more. *)
Fixpoint attempts (messages : list Prompt.t) (errs : list string) : list event :=
  match errs with
  | [] => [Create "gpt-3.5-turbo" messages]
  | err :: errs' =>
      Create "gpt-3.5-turbo" messages :: Print err :: attempts messages errs'
  end.

(** The endpoint times out with [errs] on the calls that follow the first
    [n] calls. *)
Definition times_out (env : Env) (n : nat) (errs : list string) : Prop :=
  forall k err, nth_error errs k = Some err -> endpoint env (n + k) = Timeout err.

(** The world after [ask_openai] has met the timeouts [errs] and sent its
    request once more. *)
Definition after_attempts (messages : list Prompt.t) (errs : list string)
    (w : World) : World :=
  mkWorld (log w ++ attempts messages errs)%list (confirmed_so_far w)
          (created_so_far w + S (List.length errs)).

(** ** Tokens reported by the endpoint *)

(** The [usage.total_tokens] of a reply; a call that raises reports none. *)
Definition reply_tokens (r : reply) : Z :=
  match r with
  | Completed raw_response => Usage.total_tokens (Response.usage raw_response)
  | Timeout _ | Failure _ => 0
  end.

(** The sum of the [total_tokens] of the replies to the [n] calls that
    follow the first [from] calls. *)
Fixpoint tokens_from (env : Env) (from n : nat) : Z :=
  match n with
  | O => 0
  | S n' => reply_tokens (endpoint env from) + tokens_from env (S from) n'
  end.

(** Between the worlds [w] and [w'] the endpoint was called zero or more
    times and its replies reported [t] tokens in all. *)
Definition spent (env : Env) (w w' : World) (t : Z) : Prop :=
  created_so_far w <= created_so_far w'
  /\ tokens_from env (created_so_far w) (created_so_far w' - created_so_far w) = t.

(** ** The answer to [Add?] *)

(** The claim that the answer to [Add?] has no effect on the list of
    summaries. *)
Definition add_answer_only_prints : Prop :=
  forall (endpoint : nat -> reply) (operator operator' : nat -> bool)
         (fuel i : nat) (alternative : string)
         (state state1 state2 : list string * Processment.t) (w w1 w2 : World),
    operator (confirmed_so_far w) = true ->
    operator' (confirmed_so_far w) = true ->
    process_summaries_body (mkEnv operator endpoint) fuel i alternative state w
    = Ret state1 w1 ->
    process_summaries_body (mkEnv operator' endpoint) fuel i alternative state w
    = Ret state2 w2 ->
    fst state1 = fst state2.

(** ** Sample data *)

(** A reply of the endpoint with one choice. *)
Definition sample_response (content : string) (total_tokens : Z) : Response.t :=
  Response.mk "chatcmpl-1" "chat.completion" 0 "gpt-3.5-turbo"
    (Usage.mk 0 total_tokens total_tokens)
    [Choice.mk (Message.mk Role.assistant content) (Some FinishReason.stop) 0].

(** A record as loaded from a document without [alternatives] and
    [summaries]. *)
Definition rune_without_alternatives : RuneDefinition.t :=
  RuneDefinition.mk "RUNA FOO" "d" RuneType.normal None None.

(** A record with two alternatives and no summaries. *)
Definition rune_without_summaries : RuneDefinition.t :=
  RuneDefinition.mk "RUNA BAR" "e" RuneType.invert (Some ["uno"; "dos"]) None.

(** ** Further vocabulary *)

(** Every character of the text is whitespace. *)
Fixpoint all_space (s : string) : bool :=
  match s with
  | "" => true
  | String c s' => Py.isspace c && all_space s'
  end.

(** [s.count(c)] for one character. *)
Fixpoint occurrences (c : ascii) (s : string) : nat :=
  match s with
  | "" => 0
  | String x s' => (if Ascii.eqb x c then 1 else 0) + occurrences c s'
  end.

(** The lines of the export: every item in double quotes, a comma after
    every item but the last. *)
Fixpoint exported_lines (items : list string) : list string :=
  match items with
  | [] => []
  | [item] => [Py.dquote ++ item ++ Py.dquote]
  | item :: rest => (Py.dquote ++ item ++ Py.dquote ++ ",") :: exported_lines rest
  end.

(** The texts handed to [pyperclip.copy], oldest first. *)
Fixpoint copied_texts (events : list event) : list string :=
  match events with
  | [] => []
  | Copy text :: events' => text :: copied_texts events'
  | _ :: events' => copied_texts events'
  end.

(** The record is complete: [alternatives] and [summaries] are both
    truthy. *)
Definition complete (rd : RuneDefinition.t) : bool :=
  truthy_list (RuneDefinition.alternatives rd)
  && truthy_list (RuneDefinition.summaries rd).

(** The world in which [process_alternatives] calls [ask_openai]: the
    prompt has been printed and the operator has been asked whether to send
    it. *)
Definition asked_for_alternatives (env : Env) (rd : RuneDefinition.t)
    (w : World) : World :=
  answered env "Ask to OpenAI for this prompt?" false
    (logged (Print ("[cyan]" ++ alternatives_prompt rd ++ "[/]"
                    ++ Py.nl ++ Py.nl)) w).

(** What the loop of [main] does after the reviews of a record: it adds the
    tokens of the processment to the total and prints the total. *)
Definition add_and_print (total_tokens : Z) (p : Processment.t) : M Z :=
  let total_tokens := (total_tokens + Processment.total_tokens p)%Z in
  print ("tokens: [bold blue]" ++ Py.str_of_int total_tokens ++ "[/]") ;;
  ret total_tokens.


(** * Properties *)

(** ** Strings *)

Lemma append_nil_r (s : string) : s ++ "" = s.
Proof. induction s as [|c s IH]; simpl; [reflexivity | now rewrite IH]. Qed.

Lemma append_assoc (a b c : string) : (a ++ b) ++ c = a ++ (b ++ c).
Proof. induction a as [|x a IH]; simpl; [reflexivity | now rewrite IH]. Qed.

Lemma length_append (a b : string) :
  String.length (a ++ b) = String.length a + String.length b.
Proof. induction a as [|x a IH]; simpl; [reflexivity | now rewrite IH]. Qed.

(** ** [create_string_from_list] *)

Lemma quoted_lines_cons (item item' : string) (rest : list string) :
  quoted_lines (item :: item' :: rest)
  = Py.dquote ++ item ++ Py.dquote ++ "," ++ Py.nl ++ quoted_lines (item' :: rest).
Proof. reflexivity. Qed.

Lemma create_string_loop_spec (items : list string) :
  forall (n i : Z) (copied : string),
    n = (i + Z.of_nat (List.length items))%Z ->
    create_string_loop n i items copied = copied ++ quoted_lines items.
Proof.
  induction items as [|item rest IH]; intros n i copied Hn.
  - simpl. now rewrite append_nil_r.
  - cbn [create_string_loop]. rewrite IH by (cbn [List.length] in Hn; lia).
    destruct rest as [|item' rest'].
    + cbn [List.length] in Hn.
      replace (i <? n - 1)%Z with false by (symmetry; apply Z.ltb_ge; lia).
      cbn [quoted_lines]. now rewrite append_nil_r, !append_assoc.
    + cbn [List.length] in Hn.
      replace (i <? n - 1)%Z with true by (symmetry; apply Z.ltb_lt; lia).
      rewrite (quoted_lines_cons item item' rest').
      now rewrite !append_assoc.
Qed.

(** C7.  [create_string_from_list] renders each item double-quoted on its
    own line with a comma after every line but the last; for one item [x]
    the text is the quoted [x] and a line feed, for two items [x], [y] it is
    the quoted [x], a comma, a line feed, the quoted [y] and a line feed. *)
Theorem create_string_from_list_format :
  (forall items, create_string_from_list items = quoted_lines items)
  /\ (forall x,
        create_string_from_list [x] = Py.dquote ++ x ++ Py.dquote ++ Py.nl)
  /\ (forall x y,
        create_string_from_list [x; y]
        = Py.dquote ++ x ++ Py.dquote ++ "," ++ Py.nl
          ++ Py.dquote ++ y ++ Py.dquote ++ Py.nl)
  /\ create_string_from_list ["x"]
     = String (ascii_of_nat 34) "x" ++ String (ascii_of_nat 34) Py.nl
  /\ create_string_from_list ["x"; "y"]
     = String (ascii_of_nat 34) "x" ++ String (ascii_of_nat 34) ("," ++ Py.nl)
       ++ String (ascii_of_nat 34) "y" ++ String (ascii_of_nat 34) Py.nl.
Proof.
  assert (H : forall items, create_string_from_list items = quoted_lines items).
  { intros items. unfold create_string_from_list.
    now rewrite create_string_loop_spec by lia. }
  split; [exact H|].
  split; [intros x; now rewrite H|].
  split; [intros x y; now rewrite H|].
  split; reflexivity.
Qed.

(** ** Running computations *)

Lemma bind_Ret {A B} (m : M A) (k : A -> M B) (w w2 : World) (b : B) :
  bind m k w = Ret b w2 ->
  exists a w1, m w = Ret a w1 /\ k a w1 = Ret b w2.
Proof.
  unfold bind. destruct (m w) as [a w1| |]; try discriminate.
  intros H. now exists a, w1.
Qed.

Lemma bind_run_Ret {A B} (m : M A) (k : A -> M B) (w w1 : World) (a : A) :
  m w = Ret a w1 -> bind m k w = k a w1.
Proof. unfold bind. now intros ->. Qed.

Lemma bind_run_Raise {A B} (m : M A) (k : A -> M B) (w w1 : World) (e : exn) :
  m w = Raise e w1 -> bind m k w = Raise e w1.
Proof. unfold bind. now intros ->. Qed.

Lemma print_run (text : string) (w : World) :
  print text w = Ret tt (logged (Print text) w).
Proof. reflexivity. Qed.

Lemma for_enumerate_Raise {A St} (body : nat -> A -> St -> M St)
    (i : nat) (x : A) (xs : list A) (state : St) (w w1 : World) (e : exn) :
  body i x state w = Raise e w1 ->
  for_enumerate body i (x :: xs) state w = Raise e w1.
Proof. intros H. cbn [for_enumerate]. now apply bind_run_Raise. Qed.

(** *** The driver skips complete records *)

(** C4.  A record whose [alternatives] and [summaries] are both present and
    not empty is skipped by the loop of [main]: its turn returns the running
    total as it was and leaves the world as it was (nothing printed, nothing
    asked of the operator, no call of the endpoint), so the loop goes on
    with the next record. *)
Theorem main_skips_complete_records
    (env : Env) (fuel i : nat) (rd : RuneDefinition.t) (rest : list RuneDefinition.t)
    (total_tokens : Z) (w : World)
    (a : string) (al : list string) (s : string) (sl : list string) :
  RuneDefinition.alternatives rd = Some (a :: al) ->
  RuneDefinition.summaries rd = Some (s :: sl) ->
  main_body env fuel i rd total_tokens w = Ret total_tokens w
  /\ for_enumerate (main_body env fuel) i (rd :: rest) total_tokens w
     = for_enumerate (main_body env fuel) (S i) rest total_tokens w.
Proof.
  intros Ha Hs.
  assert (H : main_body env fuel i rd total_tokens w = Ret total_tokens w).
  { unfold main_body. rewrite Ha, Hs. reflexivity. }
  split; [exact H|].
  cbn [for_enumerate]. now rewrite (bind_run_Ret _ _ _ _ _ H).
Qed.

Lemma main_skips_complete_records_witness :
  let rd := RuneDefinition.mk "RUNA FOO" "d" RuneType.normal
              (Some ["a"]) (Some ["s"]) in
  let env := mkEnv (fun _ => true) (fun _ => Failure "down") in
  main_body env 1 0 rd 7 start = Ret 7%Z start
  /\ for_enumerate (main_body env 1) 0 [rd] 7%Z start
     = for_enumerate (main_body env 1) 1 [] 7%Z start.
Proof.
  intros rd env.
  apply (main_skips_complete_records env 1 0 rd [] 7 start "a" [] "s" []);
    reflexivity.
Defined.

(** *** [ask_openai] *)

Lemma times_out_tail env n err errs :
  times_out env n (err :: errs) ->
  endpoint env n = Timeout err /\ times_out env (S n) errs.
Proof.
  intros H. split.
  - specialize (H 0 err eq_refl). now rewrite Nat.add_0_r in H.
  - intros k e Hk. specialize (H (S k) e Hk).
    now replace (S n + k) with (n + S k) by lia.
Qed.

Lemma after_attempts_cons messages err errs w :
  after_attempts messages errs
    (logged (Print err)
       (mkWorld (log w ++ [Create "gpt-3.5-turbo" messages])%list
                (confirmed_so_far w) (S (created_so_far w))))
  = after_attempts messages (err :: errs) w.
Proof.
  unfold after_attempts, logged. cbn [log confirmed_so_far created_so_far].
  f_equal.
  - rewrite <- !app_assoc. reflexivity.
  - cbn [List.length]. lia.
Qed.

Lemma ask_openai_loop_answer env messages errs :
  forall fuel w,
    List.length errs < fuel ->
    times_out env (created_so_far w) errs ->
    ask_openai_loop env fuel messages w
    = match endpoint env (created_so_far w + List.length errs) with
      | Completed raw_response =>
          Ret raw_response (after_attempts messages errs w)
      | Timeout err =>
          (print err ;; ask_openai_loop env (fuel - S (List.length errs)) messages)
            (after_attempts messages errs w)
      | Failure err => Raise (OpenAIError err) (after_attempts messages errs w)
      end.
Proof.
  induction errs as [|err errs IH]; intros fuel w Hfuel Hto.
  - destruct fuel as [|fuel]; [cbn [List.length] in Hfuel; lia|].
    replace (S fuel - S (List.length (@nil string))) with fuel
      by (cbn [List.length]; lia).
    cbn [List.length ask_openai_loop]. unfold ChatCompletion_create.
    rewrite Nat.add_0_r.
    unfold after_attempts. cbn [attempts List.length].
    replace (created_so_far w + 1) with (S (created_so_far w)) by lia.
    destruct (endpoint env (created_so_far w)); reflexivity.
  - destruct fuel as [|fuel]; [cbn [List.length] in Hfuel; lia|].
    apply times_out_tail in Hto. destruct Hto as [Hnow Hlater].
    cbn [ask_openai_loop]. unfold ChatCompletion_create. rewrite Hnow.
    rewrite (bind_run_Ret _ _ _ _ _ (print_run _ _)).
    rewrite IH.
    + rewrite after_attempts_cons.
      replace (S fuel - S (List.length (err :: errs)))
        with (fuel - S (List.length errs)) by (cbn [List.length]; lia).
      cbn [logged created_so_far List.length].
      replace (S (created_so_far w) + List.length errs)
        with (created_so_far w + S (List.length errs)) by lia.
      reflexivity.
    + cbn [List.length] in Hfuel. lia.
    + exact Hlater.
Qed.

Lemma ask_openai_loop_retrying env messages :
  forall fuel w,
    (forall k, exists err, endpoint env (created_so_far w + k) = Timeout err) ->
    ask_openai_loop env fuel messages w = Retrying.
Proof.
  induction fuel as [|fuel IH]; intros w Hall; [reflexivity|].
  cbn [ask_openai_loop]. unfold ChatCompletion_create.
  destruct (Hall 0) as [err Herr]. rewrite Nat.add_0_r in Herr. rewrite Herr.
  rewrite (bind_run_Ret _ _ _ _ _ (print_run _ _)).
  apply IH. intros k. destruct (Hall (S k)) as [e He]. exists e.
  cbn [logged created_so_far].
  now replace (S (created_so_far w) + k) with (created_so_far w + S k) by lia.
Qed.

(** C6.  [ask_openai] catches the timeout of the endpoint and nothing else.
    After any number of timeouts it has sent the same two messages once per
    timeout and once more, with only the print of each error in between; a
    reply is then returned, and another failure is raised to the caller.
    While the endpoint keeps timing out, [ask_openai] never returns, whatever
    the fuel. *)
Theorem ask_openai_retries_on_timeout_only
    (env : Env) (prompt : string) (w : World) (errs : list string) (fuel : nat) :
  List.length errs < fuel ->
  times_out env (created_so_far w) errs ->
  (forall raw_response,
      endpoint env (created_so_far w + List.length errs) = Completed raw_response ->
      ask_openai env fuel prompt w
      = Ret raw_response (after_attempts (ask_messages prompt) errs w))
  /\ (forall err,
        endpoint env (created_so_far w + List.length errs) = Failure err ->
        ask_openai env fuel prompt w
        = Raise (OpenAIError err) (after_attempts (ask_messages prompt) errs w))
  /\ ((forall k, exists err, endpoint env (created_so_far w + k) = Timeout err) ->
      forall fuel', ask_openai env fuel' prompt w = Retrying).
Proof.
  intros Hfuel Hto.
  pose proof (ask_openai_loop_answer env (ask_messages prompt) errs fuel w Hfuel Hto)
    as Hrun.
  unfold ask_openai. fold (ask_messages prompt).
  repeat split.
  - intros raw Hraw. now rewrite Hrun, Hraw.
  - intros err Herr. now rewrite Hrun, Herr.
  - intros Hall fuel'. now apply ask_openai_loop_retrying.
Qed.

(** *** Tokens spent between two worlds *)

Lemma tokens_from_add env n : forall from m,
  tokens_from env from (n + m)
  = (tokens_from env from n + tokens_from env (from + n) m)%Z.
Proof.
  induction n as [|n IH]; intros from m.
  - cbn [tokens_from Nat.add]. now rewrite Nat.add_0_r.
  - cbn [tokens_from Nat.add]. rewrite IH.
    replace (S from + n) with (from + S n) by lia. lia.
Qed.

Lemma spent_same env w w' :
  created_so_far w' = created_so_far w -> spent env w w' 0.
Proof.
  intros H. unfold spent. rewrite H, Nat.sub_diag. split; [lia | reflexivity].
Qed.

Lemma spent_trans env w1 w2 w3 t1 t2 :
  spent env w1 w2 t1 -> spent env w2 w3 t2 -> spent env w1 w3 (t1 + t2).
Proof.
  unfold spent. intros [Hle1 H1] [Hle2 H2]. split; [lia|].
  replace (created_so_far w3 - created_so_far w1)
    with ((created_so_far w2 - created_so_far w1)
          + (created_so_far w3 - created_so_far w2)) by lia.
  rewrite tokens_from_add.
  replace (created_so_far w1 + (created_so_far w2 - created_so_far w1))
    with (created_so_far w2) by lia.
  now rewrite H1, H2.
Qed.

Lemma spent_eq env w w' t t' : spent env w w' t -> t = t' -> spent env w w' t'.
Proof. now intros H <-. Qed.

(** *** What each primitive does when it returns *)

Lemma emit_Ret e w (u : unit) w' : emit e w = Ret u w' -> w' = logged e w.
Proof. unfold emit. now intros [= _ <-]. Qed.

Lemma inquirer_confirm_run env message default w :
  inquirer_confirm env message default w
  = Ret (operator env (confirmed_so_far w)) (answered env message default w).
Proof. reflexivity. Qed.

Lemma inquirer_confirm_Ret env message default w b w' :
  inquirer_confirm env message default w = Ret b w' ->
  b = operator env (confirmed_so_far w) /\ w' = answered env message default w.
Proof. rewrite inquirer_confirm_run. now intros [= <- <-]. Qed.

Lemma ret_Ret {A} (a b : A) (w w' : World) : ret a w = Ret b w' -> b = a /\ w' = w.
Proof. unfold ret. now intros [= <- <-]. Qed.

Lemma unpack_single_Ret {A} (xs : list A) (x : A) (w w' : World) :
  unpack_single xs w = Ret x w' -> xs = [x] /\ w' = w.
Proof.
  destruct xs as [|y [|z xs]]; cbn; try discriminate.
  now intros [= <- <-].
Qed.

Lemma ask_openai_loop_Ret env messages : forall fuel w raw_response w',
  ask_openai_loop env fuel messages w = Ret raw_response w' ->
  confirmed_so_far w' = confirmed_so_far w
  /\ spent env w w' (Usage.total_tokens (Response.usage raw_response)).
Proof.
  induction fuel as [|fuel IH]; intros w raw w' H; [discriminate|].
  cbn [ask_openai_loop] in H. unfold ChatCompletion_create in H.
  destruct (endpoint env (created_so_far w)) as [raw0|err|err] eqn:Hreply.
  - injection H as <- <-. cbn [confirmed_so_far]. split; [reflexivity|].
    unfold spent. cbn [created_so_far].
    replace (S (created_so_far w) - created_so_far w) with 1 by lia.
    cbn [tokens_from]. rewrite Hreply. cbn [reply_tokens]. split; lia.
  - rewrite (bind_run_Ret _ _ _ _ _ (print_run _ _)) in H.
    apply IH in H. destruct H as [Hc Hs]. cbn [logged confirmed_so_far] in Hc.
    split; [exact Hc|].
    unfold spent in *. cbn [logged created_so_far] in Hs.
    destruct Hs as [Hle Hs]. split; [lia|].
    replace (created_so_far w' - created_so_far w)
      with (S (created_so_far w' - S (created_so_far w))) by lia.
    cbn [tokens_from]. rewrite Hreply. cbn [reply_tokens]. lia.
  - discriminate.
Qed.

Lemma for_enumerate_prints (line : nat -> string -> unit -> M unit) :
  (forall i x w, exists w', line i x tt w = Ret tt w'
                            /\ confirmed_so_far w' = confirmed_so_far w
                            /\ created_so_far w' = created_so_far w) ->
  forall xs i w, exists w', for_enumerate line i xs tt w = Ret tt w'
                            /\ confirmed_so_far w' = confirmed_so_far w
                            /\ created_so_far w' = created_so_far w.
Proof.
  intros Hline. induction xs as [|x xs IH]; intros i w.
  - exists w. now cbn.
  - destruct (Hline i x w) as (w1 & H1 & Hc1 & Hk1).
    destruct (IH (S i) w1) as (w2 & H2 & Hc2 & Hk2).
    exists w2. cbn [for_enumerate]. rewrite (bind_run_Ret _ _ _ _ _ H1).
    repeat split; congruence.
Qed.

Lemma print_summary_loop xs i w :
  exists w', for_enumerate print_summary i xs tt w = Ret tt w'
             /\ confirmed_so_far w' = confirmed_so_far w
             /\ created_so_far w' = created_so_far w.
Proof.
  apply for_enumerate_prints. intros j x w0. eexists. now split.
Qed.

Lemma print_item_loop xs i w :
  exists w', for_enumerate print_item i xs tt w = Ret tt w'
             /\ confirmed_so_far w' = confirmed_so_far w
             /\ created_so_far w' = created_so_far w.
Proof.
  apply for_enumerate_prints. intros j x w0. eexists. now split.
Qed.

(** *** What the two reviews do when they return *)

(** Takes a run that returned apart, one call at a time. *)
Ltac run_inv H :=
  lazymatch type of H with
  | bind (print _) _ _ = Ret _ _ =>
      rewrite (bind_run_Ret _ _ _ _ _ (print_run _ _)) in H
  | bind (pyperclip_copy _) _ _ = Ret _ _ =>
      unfold pyperclip_copy in H;
      let x := fresh "u" in let w := fresh "w" in let E := fresh "E" in
      apply bind_Ret in H; destruct H as (x & w & E & H);
      apply emit_Ret in E; subst w
  | bind (inquirer_confirm _ _ _) _ _ = Ret _ _ =>
      rewrite (bind_run_Ret _ _ _ _ _ (inquirer_confirm_run _ _ _ _)) in H
  | bind _ _ _ = Ret _ _ =>
      let x := fresh "x" in let w := fresh "w" in let E := fresh "E" in
      apply bind_Ret in H; destruct H as (x & w & E & H)
  end.

Lemma print_item_loop_Ret xs i w (u : unit) w' :
  for_enumerate print_item i xs tt w = Ret u w' ->
  confirmed_so_far w' = confirmed_so_far w /\ created_so_far w' = created_so_far w.
Proof.
  destruct (print_item_loop xs i w) as (w2 & Hloop & Hc & Hk).
  rewrite Hloop. now intros [= _ <-].
Qed.

Lemma print_summary_loop_Ret xs i w (u : unit) w' :
  for_enumerate print_summary i xs tt w = Ret u w' ->
  confirmed_so_far w' = confirmed_so_far w /\ created_so_far w' = created_so_far w.
Proof.
  destruct (print_summary_loop xs i w) as (w2 & Hloop & Hc & Hk).
  rewrite Hloop. now intros [= _ <-].
Qed.

Lemma copy_step_Ret (will_copy : bool) (copied : string) (w : World) (u : unit) w' :
  (if will_copy
   then pyperclip_copy copied ;; print ("[green]Copied![/]" ++ Py.nl)
   else ret tt) w = Ret u w' ->
  confirmed_so_far w' = confirmed_so_far w /\ created_so_far w' = created_so_far w.
Proof.
  destruct will_copy; intros H.
  - run_inv H. rewrite print_run in H. injection H as _ <-.
    cbn [logged confirmed_so_far created_so_far]. split; reflexivity.
  - apply ret_Ret in H. destruct H as [_ ->]. now split.
Qed.

Lemma process_alternatives_Ret env fuel p w p' w' :
  process_alternatives env fuel p w = Ret p' w' ->
  Processment.rune_definition p' = Processment.rune_definition p
  /\ spent env w w' (Processment.total_tokens p' - Processment.total_tokens p).
Proof.
  unfold process_alternatives. intros H.
  run_inv H. run_inv H.
  destruct (operator env _); cbn [negb] in H.
  - run_inv H. unfold ask_openai in E.
    apply ask_openai_loop_Ret in E. destruct E as [_ Hspent].
    run_inv H. run_inv H. apply unpack_single_Ret in E. destruct E as [_ ->].
    run_inv H. run_inv H.
    apply print_item_loop_Ret in E. destruct E as [_ Hk2].
    run_inv H. run_inv H. apply copy_step_Ret in E. destruct E as [_ Hk3].
    apply ret_Ret in H. destruct H as [-> ->].
    cbn [Processment.add_tokens Processment.rune_definition
         Processment.total_tokens].
    split; [reflexivity|].
    eapply spent_eq.
    + eapply spent_trans; [apply spent_same | eapply spent_trans; [exact Hspent|]].
      * reflexivity.
      * apply spent_same. rewrite Hk3. cbn [answered created_so_far].
        rewrite Hk2. reflexivity.
    + lia.
  - run_inv H. apply ret_Ret in H. destruct H as [-> ->].
    split; [reflexivity|]. rewrite Z.sub_diag. now apply spent_same.
Qed.

Lemma process_summaries_body_Ret env fuel i alternative summaries p w
    summaries' p' w' :
  process_summaries_body env fuel i alternative (summaries, p) w
  = Ret (summaries', p') w' ->
  Processment.rune_definition p' = Processment.rune_definition p
  /\ spent env w w' (Processment.total_tokens p' - Processment.total_tokens p).
Proof.
  unfold process_summaries_body. intros H.
  run_inv H. run_inv H.
  destruct (operator env _); cbn [negb] in H.
  - run_inv H. unfold ask_openai in E.
    apply ask_openai_loop_Ret in E. destruct E as [_ Hspent].
    run_inv H. run_inv H. apply unpack_single_Ret in E. destruct E as [_ ->].
    run_inv H. run_inv H. run_inv H.
    assert (Hk : created_so_far w1 = created_so_far w0).
    { destruct (operator env _).
      - run_inv E. apply ret_Ret in E. now destruct E as [_ ->].
      - apply ret_Ret in E. now destruct E as [_ ->]. }
    apply ret_Ret in H. destruct H as [[= -> ->] ->].
    cbn [Processment.add_tokens Processment.rune_definition
         Processment.total_tokens].
    split; [reflexivity|].
    eapply spent_eq.
    + eapply spent_trans; [apply spent_same | eapply spent_trans; [exact Hspent|]].
      * reflexivity.
      * apply spent_same. exact Hk.
    + lia.
  - run_inv H. apply ret_Ret in H. destruct H as [[= -> ->] ->].
    split; [reflexivity|]. rewrite Z.sub_diag. now apply spent_same.
Qed.

Lemma process_summaries_loop_Ret env fuel alternatives :
  forall i summaries p w summaries' p' w',
    for_enumerate (process_summaries_body env fuel) i alternatives
                  (summaries, p) w
    = Ret (summaries', p') w' ->
    Processment.rune_definition p' = Processment.rune_definition p
    /\ spent env w w' (Processment.total_tokens p' - Processment.total_tokens p).
Proof.
  induction alternatives as [|alternative rest IH];
    intros i summaries p w summaries' p' w' H.
  - apply ret_Ret in H. destruct H as [[= -> ->] ->].
    split; [reflexivity|]. rewrite Z.sub_diag. now apply spent_same.
  - cbn [for_enumerate] in H. run_inv H. destruct x as [summaries1 p1].
    apply process_summaries_body_Ret in E. destruct E as [Hrd1 Hs1].
    apply IH in H. destruct H as [Hrd2 Hs2].
    split; [congruence|].
    eapply spent_eq; [eapply spent_trans; eassumption | lia].
Qed.

Lemma process_summaries_Ret env fuel p w p' w' :
  process_summaries env fuel p w = Ret p' w' ->
  Processment.rune_definition p' = Processment.rune_definition p
  /\ spent env w w' (Processment.total_tokens p' - Processment.total_tokens p).
Proof.
  unfold process_summaries. intros H.
  destruct (RuneDefinition.alternatives (Processment.rune_definition p))
    as [alternatives|]; [|discriminate].
  run_inv H. destruct x as [summaries p1].
  apply process_summaries_loop_Ret in E. destruct E as [Hrd Hs].
  run_inv H. run_inv H.
  apply print_summary_loop_Ret in E. destruct E as [_ Hk1].
  run_inv H. run_inv H.
  assert (Hk2 : created_so_far w2 = created_so_far w1).
  { destruct (operator env _).
    - run_inv E. run_inv E. rewrite print_run in E.
      injection E as _ <-. cbn [logged created_so_far].
      destruct (0 <? _)%Z.
      + apply ret_Ret in E0. now destruct E0 as [_ ->].
      + discriminate.
    - apply ret_Ret in E. destruct E as [_ ->]. reflexivity. }
  apply ret_Ret in H. destruct H as [-> ->].
  split; [exact Hrd|].
  eapply spent_eq.
  - eapply spent_trans; [exact Hs|].
    apply spent_same. rewrite Hk2, Hk1. reflexivity.
  - lia.
Qed.

(** *** The driver *)

Lemma bind_ext_Ret {A B} (m : M A) (k1 k2 : A -> M B) (w : World) :
  (forall a w1, m w = Ret a w1 -> k1 a w1 = k2 a w1) ->
  bind m k1 w = bind m k2 w.
Proof.
  intros H. unfold bind. destruct (m w) as [a w1| |]; [now apply H | | ];
    reflexivity.
Qed.

Lemma main_body_Ret env fuel i rd total_tokens w total_tokens' w' :
  main_body env fuel i rd total_tokens w = Ret total_tokens' w' ->
  spent env w w' (total_tokens' - total_tokens).
Proof.
  unfold main_body. intros H.
  destruct (truthy_list (RuneDefinition.alternatives rd)
            && truthy_list (RuneDefinition.summaries rd)).
  - apply ret_Ret in H. destruct H as [-> ->].
    rewrite Z.sub_diag. now apply spent_same.
  - run_inv H. run_inv H. run_inv H. run_inv H.
    apply ret_Ret in H. destruct H as [-> ->].
    assert (H1 : Processment.rune_definition x = rd
                 /\ spent env w w0 (Processment.total_tokens x)).
    { cbn [Processment.new Processment.rune_definition] in E.
      destruct (negb _).
      - apply process_alternatives_Ret in E. destruct E as [Hrd Hs].
        split; [exact Hrd|].
        cbn [Processment.new Processment.total_tokens] in Hs.
        rewrite Z.sub_0_r in Hs.
        replace (Processment.total_tokens x)
          with (0 + Processment.total_tokens x)%Z by lia.
        eapply spent_trans; [|exact Hs]. now apply spent_same.
      - apply ret_Ret in E. destruct E as [-> ->].
        split; [reflexivity|]. now apply spent_same. }
    destruct H1 as [Hrd1 Hs1].
    assert (H2 : spent env w0 w1
                   (Processment.total_tokens x0 - Processment.total_tokens x)).
    { destruct (_ && _).
      - apply process_summaries_Ret in E0. now destruct E0.
      - apply ret_Ret in E0. destruct E0 as [-> ->].
        rewrite Z.sub_diag. now apply spent_same. }
    eapply spent_eq.
    + eapply spent_trans; [exact Hs1|]. eapply spent_trans; [exact H2|].
      apply spent_same. reflexivity.
    + lia.
Qed.

Lemma main_loop_Ret env fuel rune_definitions :
  forall i total_tokens w total_tokens' w',
    for_enumerate (main_body env fuel) i rune_definitions total_tokens w
    = Ret total_tokens' w' ->
    spent env w w' (total_tokens' - total_tokens).
Proof.
  induction rune_definitions as [|rd rest IH]; intros i total w total' w' H.
  - apply ret_Ret in H. destruct H as [-> ->].
    rewrite Z.sub_diag. now apply spent_same.
  - cbn [for_enumerate] in H. run_inv H.
    apply main_body_Ret in E. apply IH in H.
    eapply spent_eq; [eapply spent_trans; eassumption | lia].
Qed.

(** C9.  Token accounting is additive.  Each review adds to the
    [total_tokens] of its processment the [total_tokens] of every reply it
    received, and when a run of [main] ends its run-wide [total_tokens] is the
    sum of the [total_tokens] of all the replies of the run. *)
Theorem total_tokens_is_sum_of_usage (env : Env) (fuel : nat) :
  (forall p w p' w',
      process_alternatives env fuel p w = Ret p' w' ->
      spent env w w' (Processment.total_tokens p' - Processment.total_tokens p))
  /\ (forall p w p' w',
        process_summaries env fuel p w = Ret p' w' ->
        spent env w w' (Processment.total_tokens p' - Processment.total_tokens p))
  /\ (forall rune_definitions w total_tokens w',
        main env fuel rune_definitions w = Ret total_tokens w' ->
        spent env w w' total_tokens).
Proof.
  split; [|split].
  - intros p w p' w' H. now apply process_alternatives_Ret in H.
  - intros p w p' w' H. now apply process_summaries_Ret in H.
  - intros rune_definitions w total_tokens w'. unfold main. intros H.
    run_inv H. run_inv H. apply main_loop_Ret in E.
    run_inv H. apply ret_Ret in H. destruct H as [-> ->].
    eapply spent_eq.
    + eapply spent_trans; [apply spent_same|].
      * reflexivity.
      * eapply spent_trans; [exact E|]. apply spent_same. reflexivity.
    + lia.
Qed.

(** C5.  Neither review changes the record: the processment that
    [process_alternatives] or [process_summaries] returns carries the rune
    definition it was given.  So for a record that was loaded without
    [alternatives] the driver runs the alternatives review only: the
    summaries review is not run in that turn. *)
Theorem reviews_never_store_results
    (env : Env) (fuel : nat) (processment : Processment.t) (w : World)
    (i : nat) (rd : RuneDefinition.t) (total_tokens : Z) :
  (forall p' w',
      process_alternatives env fuel processment w = Ret p' w' ->
      Processment.rune_definition p' = Processment.rune_definition processment)
  /\ (forall p' w',
        process_summaries env fuel processment w = Ret p' w' ->
        Processment.rune_definition p' = Processment.rune_definition processment)
  /\ (RuneDefinition.alternatives rd = None ->
      main_body env fuel i rd total_tokens w
      = (print ("[bold green]" ++ Py.str_of_nat i ++ "[/] -:" ++ Py.nl) ;;
         p <- process_alternatives env fuel (Processment.new rd) ;;
         let total_tokens := (total_tokens + Processment.total_tokens p)%Z in
         print ("tokens: [bold blue]" ++ Py.str_of_int total_tokens ++ "[/]") ;;
         ret total_tokens) w).
Proof.
  split; [|split].
  - intros p' w' H. now apply process_alternatives_Ret in H.
  - intros p' w' H. now apply process_summaries_Ret in H.
  - intros Hnone. unfold main_body.
    cbn [Processment.new Processment.rune_definition].
    rewrite Hnone. cbn [truthy_list andb negb].
    rewrite !(bind_run_Ret _ _ _ _ _ (print_run _ _)).
    apply bind_ext_Ret. intros p1 w1 Hrun.
    apply process_alternatives_Ret in Hrun. destruct Hrun as [Hrd _].
    cbn [Processment.new Processment.rune_definition] in Hrd.
    rewrite Hrd, Hnone. reflexivity.
Qed.

(** *** The summaries review *)

(** The answer to [Add?] does change the summaries: with the same reply
    they are [resumen; resumen] when the operator accepts and [resumen] when
    the operator declines. *)
Lemma add_answer_changes_summaries : ~ add_answer_only_prints.
Proof.
  intros H.
  specialize (H (fun _ => Completed (sample_response "resumen" 10))
                (fun _ => true) (fun k => Nat.eqb k 0)
                1 0 "texto" ([], Processment.new
                                   (RuneDefinition.mk "RUNA FOO" "d"
                                      RuneType.normal (Some ["texto"]) None))
                _ _ start _ _ eq_refl eq_refl eq_refl eq_refl).
  discriminate H.
Qed.

(** C1.  What the loop of [process_summaries] does with the answer to
    [Add?].  When the operator agrees to ask and the endpoint answers with
    one choice, the content is in the summaries whatever the answer is; it is
    appended once when the operator declines and twice when the operator
    accepts (in the branch of the answer, where the acknowledgment is
    printed, and again after it). *)
Theorem summary_appended_whatever_the_answer
    (env : Env) (fuel i : nat) (alternative : string)
    (summaries : list string) (processment : Processment.t) (w w1 : World)
    (response : Response.t) (choice : Choice.t) :
  operator env (confirmed_so_far w) = true ->
  ask_openai env fuel (PROMPT_TO_SUMMARY alternative)
             (asked_for_summary env i alternative w) = Ret response w1 ->
  Response.choices response = [choice] ->
  let content := Message.content (Choice.message choice) in
  let will_add := operator env (S (confirmed_so_far w)) in
  let summaries' :=
    (summaries ++ (if will_add then [content; content] else [content]))%list in
  In content summaries'
  /\ process_summaries_body env fuel i alternative (summaries, processment) w
     = Ret (summaries',
            Processment.add_tokens
              (Usage.total_tokens (Response.usage response)) processment)
           (mkWorld
              (log w1
               ++ [Print ("Usage tokens: [bold blue]"
                          ++ Py.str_of_int
                               (Usage.total_tokens (Response.usage response))
                          ++ "[/]");
                   Print (content ++ Py.nl);
                   Confirm "Add?" true will_add]
               ++ (if will_add then [Print ("[green]Added![/]" ++ Py.nl)]
                   else []))%list
              (S (confirmed_so_far w1)) (created_so_far w1)).
Proof.
  intros Hask Hrun Hchoices content will_add summaries'.
  split.
  { unfold summaries'. apply in_or_app. right.
    destruct will_add; now left. }
  assert (Hc : confirmed_so_far w1 = S (confirmed_so_far w)).
  { unfold ask_openai in Hrun. apply ask_openai_loop_Ret in Hrun.
    destruct Hrun as [Hc _]. rewrite Hc. reflexivity. }
  unfold process_summaries_body.
  rewrite (bind_run_Ret _ _ _ _ _ (print_run _ _)).
  rewrite (bind_run_Ret _ _ _ _ _ (inquirer_confirm_run _ _ _ _)).
  cbn [logged confirmed_so_far]. rewrite Hask. cbn [negb].
  fold (asked_for_summary env i alternative w) in Hrun.
  unfold asked_for_summary, answered, logged in Hrun.
  cbn [log confirmed_so_far created_so_far] in Hrun.
  unfold answered, logged. cbn [log confirmed_so_far created_so_far].
  rewrite (bind_run_Ret _ _ _ _ _ Hrun).
  rewrite (bind_run_Ret _ _ _ _ _ (print_run _ _)).
  rewrite Hchoices. cbn [unpack_single].
  unfold bind at 1. unfold ret at 1.
  rewrite (bind_run_Ret _ _ _ _ _ (print_run _ _)).
  rewrite (bind_run_Ret _ _ _ _ _ (inquirer_confirm_run _ _ _ _)).
  unfold answered, logged. cbn [log confirmed_so_far created_so_far].
  rewrite Hc. unfold summaries', will_add.
  destruct (operator env (S (confirmed_so_far w))).
  - unfold bind, print, emit, ret. cbn [log confirmed_so_far created_so_far].
    rewrite <- !app_assoc. reflexivity.
  - unfold bind, ret.
    rewrite <- !app_assoc. rewrite app_nil_r. reflexivity.
Qed.

Lemma summary_appended_whatever_the_answer_witness :
  let env := mkEnv (fun k => Nat.eqb k 0)
                   (fun _ => Completed (sample_response "resumen" 10)) in
  let p := Processment.new (RuneDefinition.mk "RUNA FOO" "d" RuneType.normal
                              (Some ["texto"]) None) in
  exists w',
    In "resumen" ["previo"; "resumen"]
    /\ process_summaries_body env 1 0 "texto" (["previo"], p) start
       = Ret (["previo"; "resumen"], Processment.add_tokens 10 p) w'.
Proof.
  intros env p. eexists.
  refine (summary_appended_whatever_the_answer
            env 1 0 "texto" ["previo"] p start _
            (sample_response "resumen" 10)
            (Choice.mk (Message.mk Role.assistant "resumen")
                       (Some FinishReason.stop) 0) _ _ _);
    reflexivity.
Defined.

Lemma process_summaries_body_declined env fuel i alternative summaries p w :
  operator env (confirmed_so_far w) = false ->
  process_summaries_body env fuel i alternative (summaries, p) w
  = Ret (summaries, p)
        (logged (Print "[red]Ignored[/]") (asked_for_summary env i alternative w)).
Proof.
  intros Hno. unfold process_summaries_body.
  rewrite (bind_run_Ret _ _ _ _ _ (print_run _ _)).
  rewrite (bind_run_Ret _ _ _ _ _ (inquirer_confirm_run _ _ _ _)).
  cbn [logged confirmed_so_far]. rewrite Hno. cbn [negb].
  rewrite (bind_run_Ret _ _ _ _ _ (print_run _ _)).
  reflexivity.
Qed.

(** With every alternative declined the loop of [process_summaries] leaves
    its state as it was. *)
Lemma declined_summaries_loop env fuel alternatives :
  forall i summaries p w,
    (forall k, k < List.length alternatives ->
               operator env (confirmed_so_far w + k) = false) ->
    exists w',
      for_enumerate (process_summaries_body env fuel) i alternatives
                    (summaries, p) w
      = Ret (summaries, p) w'
      /\ confirmed_so_far w' = confirmed_so_far w + List.length alternatives
      /\ created_so_far w' = created_so_far w.
Proof.
  induction alternatives as [|alternative rest IH]; intros i summaries p w Hno.
  - exists w. cbn. repeat split; lia.
  - assert (Hfirst : operator env (confirmed_so_far w) = false).
    { rewrite <- (Nat.add_0_r (confirmed_so_far w)). apply Hno. cbn. lia. }
    cbn [for_enumerate].
    rewrite (bind_run_Ret _ _ _ _ _
               (process_summaries_body_declined env fuel i alternative
                  summaries p w Hfirst)).
    match goal with
    | |- exists w', for_enumerate _ _ _ _ ?w0 = _ /\ _ =>
        destruct (IH (S i) summaries p w0) as (w' & Hloop & Hc & Hk)
    end.
    + intros k Hk. cbn [logged asked_for_summary answered confirmed_so_far].
      replace (S (confirmed_so_far w) + k) with (confirmed_so_far w + S k) by lia.
      apply Hno. cbn [List.length]. lia.
    + exists w'. split; [exact Hloop|].
      cbn [logged asked_for_summary answered confirmed_so_far created_so_far]
        in Hc, Hk.
      cbn [List.length]. split; [lia | exact Hk].
Qed.

Lemma process_summaries_all_declined env fuel p alternatives w :
  RuneDefinition.alternatives (Processment.rune_definition p) = Some alternatives ->
  (forall k, k < List.length alternatives ->
             operator env (confirmed_so_far w + k) = false) ->
  operator env (confirmed_so_far w + List.length alternatives) = true ->
  exists w', process_summaries env fuel p w = Raise AssertionError w'.
Proof.
  intros Halt Hno Hyes. unfold process_summaries. rewrite Halt.
  destruct (declined_summaries_loop env fuel alternatives 0 [] p w Hno)
    as (w1 & Hloop & Hc & _).
  rewrite (bind_run_Ret _ _ _ _ _ Hloop).
  rewrite (bind_run_Ret _ _ _ _ _ (print_run _ _)).
  cbn [for_enumerate].
  unfold bind at 1. unfold ret at 1.
  rewrite (bind_run_Ret _ _ _ _ _ (inquirer_confirm_run _ _ _ _)).
  cbn [logged confirmed_so_far]. rewrite Hc, Hyes.
  eexists. reflexivity.
Qed.

Lemma main_body_all_declined env fuel i rd alternatives total_tokens w :
  RuneDefinition.alternatives rd = Some alternatives ->
  alternatives <> [] ->
  truthy_list (RuneDefinition.summaries rd) = false ->
  (forall k, k < List.length alternatives ->
             operator env (confirmed_so_far w + k) = false) ->
  operator env (confirmed_so_far w + List.length alternatives) = true ->
  exists w', main_body env fuel i rd total_tokens w = Raise AssertionError w'.
Proof.
  intros Halt Hne Hsum Hno Hyes. unfold main_body.
  cbn [Processment.new Processment.rune_definition].
  rewrite Halt, Hsum.
  destruct alternatives as [|a al]; [contradiction|].
  cbn [truthy_list andb negb].
  rewrite (bind_run_Ret _ _ _ _ _ (print_run _ _)).
  unfold bind at 1. unfold ret at 1.
  cbn [Processment.new Processment.rune_definition]. rewrite ?Halt, ?Hsum.
  cbn [truthy_list andb negb].
  match goal with
  | |- exists w', bind (process_summaries _ _ ?p) _ ?w0 = _ =>
      destruct (process_summaries_all_declined env fuel p (a :: al) w0)
        as (w' & Hraise); [exact Halt | exact Hno | exact Hyes |]
  end.
  exists w'. now rewrite (bind_run_Raise _ _ _ _ _ Hraise).
Qed.

(** C10.  [create_string_from_list] gives the empty string for the empty
    list.  So when the operator declines to ask for every alternative and
    then accepts the copy, the assertion on the length of the text fails:
    [process_summaries] raises [AssertionError], and so does [main] on a
    record whose turn reaches that review. *)
Theorem empty_summaries_fail_the_assertion
    (env : Env) (fuel : nat) (rd : RuneDefinition.t)
    (alternatives : list string) (w : World)
    (rest : list RuneDefinition.t) :
  RuneDefinition.alternatives rd = Some alternatives ->
  (forall k, k < List.length alternatives ->
             operator env (confirmed_so_far w + k) = false) ->
  operator env (confirmed_so_far w + List.length alternatives) = true ->
  create_string_from_list [] = ""
  /\ (forall p, Processment.rune_definition p = rd ->
                exists w', process_summaries env fuel p w = Raise AssertionError w')
  /\ (alternatives <> [] ->
      truthy_list (RuneDefinition.summaries rd) = false ->
      exists w', main env fuel (rd :: rest) w = Raise AssertionError w').
Proof.
  intros Halt Hno Hyes. split; [reflexivity|]. split.
  - intros p <-. now apply (process_summaries_all_declined env fuel p alternatives).
  - intros Hne Hsum. unfold main.
    rewrite (bind_run_Ret _ _ _ _ _ (print_run _ _)).
    destruct (main_body_all_declined env fuel 0 rd alternatives 0
                (logged (Print (Py.str_of_nat (List.length (rd :: rest))
                                ++ " loaded")) w)
                Halt Hne Hsum Hno Hyes) as (w' & Hraise).
    exists w'.
    now rewrite (bind_run_Raise _ _ _ _ _
                   (for_enumerate_Raise _ _ _ _ _ _ _ _ Hraise)).
Qed.

(** *** Concrete runs *)

Lemma empty_summaries_fail_the_assertion_witness :
  let env := mkEnv (fun k => Nat.eqb k 2) (fun _ => Failure "unused") in
  create_string_from_list [] = ""
  /\ (exists w',
        process_summaries env 1 (Processment.new rune_without_summaries) start
        = Raise AssertionError w')
  /\ (exists w', main env 1 [rune_without_summaries] start
                 = Raise AssertionError w').
Proof.
  intros env.
  assert (Hno : forall k, k < List.length ["uno"; "dos"] ->
                          operator env (confirmed_so_far start + k) = false).
  { intros k Hk. cbn in Hk. destruct k as [|[|k]]; [reflexivity | reflexivity | lia]. }
  destruct (empty_summaries_fail_the_assertion
              env 1 rune_without_summaries ["uno"; "dos"] start []
              eq_refl Hno eq_refl) as (Hempty & Hreview & Hmain).
  split; [exact Hempty|]. split.
  - apply Hreview. reflexivity.
  - apply Hmain; [discriminate | reflexivity].
Defined.

Lemma ask_openai_retries_on_timeout_only_witness :
  let answers_third :=
    mkEnv (fun _ => true)
          (fun k => match k with
                    | 0 => Timeout "t1"
                    | 1 => Timeout "t2"
                    | _ => Completed (sample_response "ok" 3)
                    end) in
  let refuses :=
    mkEnv (fun _ => true)
          (fun k => match k with 0 => Timeout "t1" | _ => Failure "quota" end) in
  let never_answers := mkEnv (fun _ => true) (fun _ => Timeout "t") in
  ask_openai answers_third 3 "p" start
  = Ret (sample_response "ok" 3)
        (after_attempts (ask_messages "p") ["t1"; "t2"] start)
  /\ ask_openai refuses 2 "p" start
     = Raise (OpenAIError "quota") (after_attempts (ask_messages "p") ["t1"] start)
  /\ (forall fuel, ask_openai never_answers fuel "p" start = Retrying).
Proof.
  intros answers_third refuses never_answers. split; [|split].
  - refine (proj1 (ask_openai_retries_on_timeout_only
                     answers_third "p" start ["t1"; "t2"] 3 _ _) _ eq_refl).
    + cbn. lia.
    + intros k err Hk. destruct k as [|[|k]]; cbn in Hk.
      * now injection Hk as <-.
      * now injection Hk as <-.
      * destruct k; discriminate.
  - refine (proj1 (proj2 (ask_openai_retries_on_timeout_only
                            refuses "p" start ["t1"] 2 _ _)) _ eq_refl).
    + cbn. lia.
    + intros k err Hk. destruct k as [|k]; cbn in Hk.
      * now injection Hk as <-.
      * destruct k; discriminate.
  - refine (proj2 (proj2 (ask_openai_retries_on_timeout_only
                            never_answers "p" start [] 1 _ _)) _).
    + cbn. lia.
    + intros k err Hk. destruct k; discriminate.
    + intros k. now exists "t".
Defined.

(** Two completions that report 10 and 15 tokens, one for the alternatives
    of the first record and one for the only summary asked of the second:
    the run-wide total reads 25. *)
Lemma total_tokens_is_sum_of_usage_witness :
  let env :=
    mkEnv (fun k => negb (Nat.eqb k 4))
          (fun k => match k with
                    | 0 => Completed (sample_response "1. uno" 10)
                    | _ => Completed (sample_response "resumen" 15)
                    end) in
  (exists p' w',
      process_alternatives env 1 (Processment.new rune_without_alternatives) start
      = Ret p' w'
      /\ Processment.total_tokens p' = 10%Z
      /\ spent env start w' (10 - 0))
  /\ (exists w',
        main env 1 [rune_without_alternatives; rune_without_summaries] start
        = Ret 25%Z w'
        /\ tokens_from env 0 2 = (10 + 15)%Z
        /\ spent env start w' 25).
Proof.
  intros env. split.
  - eexists. eexists. split; [vm_compute; reflexivity|].
    split; [reflexivity|].
    refine (proj1 (total_tokens_is_sum_of_usage env 1)
                  (Processment.new rune_without_alternatives) start
                  (Processment.mk rune_without_alternatives 10) _ _).
    vm_compute. reflexivity.
  - eexists. split; [vm_compute; reflexivity|].
    split; [reflexivity|].
    refine (proj2 (proj2 (total_tokens_is_sum_of_usage env 1))
                  [rune_without_alternatives; rune_without_summaries]
                  start 25%Z _ _).
    vm_compute. reflexivity.
Defined.

Lemma reviews_never_store_results_witness :
  let env := mkEnv (fun _ => true)
                   (fun _ => Completed (sample_response "1. uno" 10)) in
  let p := Processment.new rune_without_alternatives in
  let q := Processment.new rune_without_summaries in
  (exists p' w', process_alternatives env 1 p start = Ret p' w'
                 /\ Processment.rune_definition p' = rune_without_alternatives)
  /\ (exists q' w', process_summaries env 1 q start = Ret q' w'
                    /\ Processment.rune_definition q' = rune_without_summaries)
  /\ main_body env 1 0 rune_without_alternatives 0 start
     = (print ("[bold green]" ++ Py.str_of_nat 0 ++ "[/] -:" ++ Py.nl) ;;
        p1 <- process_alternatives env 1 p ;;
        let total_tokens := (0 + Processment.total_tokens p1)%Z in
        print ("tokens: [bold blue]" ++ Py.str_of_int total_tokens ++ "[/]") ;;
        ret total_tokens) start.
Proof.
  intros env p q. split; [|split].
  - eexists. eexists. split; [vm_compute; reflexivity|].
    refine (proj1 (reviews_never_store_results
                     env 1 p start 0 rune_without_alternatives 0) _ _ _).
    vm_compute. reflexivity.
  - eexists. eexists. split; [vm_compute; reflexivity|].
    refine (proj1 (proj2 (reviews_never_store_results
                            env 1 q start 0 rune_without_alternatives 0)) _ _ _).
    vm_compute. reflexivity.
  - exact (proj2 (proj2 (reviews_never_store_results
                           env 1 p start 0 rune_without_alternatives 0)) eq_refl).
Defined.

(** ** Characters and the pattern *)

Lemma skip_digits_length s :
  String.length (REGEX_ITEM.skip_digits s) <= String.length s.
Proof.
  induction s as [|c s IH]; cbn [REGEX_ITEM.skip_digits String.length]; [lia|].
  destruct (Py.isdigit c); cbn [String.length]; lia.
Qed.

Lemma match_length s rest :
  REGEX_ITEM.match_ s = Some rest -> String.length rest < String.length s.
Proof.
  destruct s as [|c s]; cbn [REGEX_ITEM.match_]; [discriminate|].
  destruct (Py.isdigit c); [|discriminate].
  pose proof (skip_digits_length s) as Hle.
  destruct (REGEX_ITEM.skip_digits s) as [|d r]; [discriminate|].
  destruct (Ascii.eqb d Py.DOT); [|discriminate].
  intros [= <-]. cbn [String.length] in *. lia.
Qed.

Lemma digit_not_space c : Py.isdigit c = true -> Py.isspace c = false.
Proof.
  destruct c as [[] [] [] [] [] [] [] []]; vm_compute; congruence.
Qed.

Lemma digit_not_dot c : Py.isdigit c = true -> Ascii.eqb c Py.DOT = false.
Proof.
  destruct c as [[] [] [] [] [] [] [] []]; vm_compute; congruence.
Qed.

Lemma digit_not_LF c : Py.isdigit c = true -> Ascii.eqb c Py.LF = false.
Proof.
  destruct c as [[] [] [] [] [] [] [] []]; vm_compute; congruence.
Qed.

Lemma string_of_uint_digits d : digits_only (NilEmpty.string_of_uint d) = true.
Proof. induction d; cbn; auto. Qed.

Lemma str_of_nat_digits n :
  digits_only (Py.str_of_nat n) = true /\ Py.str_of_nat n <> "".
Proof.
  unfold Py.str_of_nat, NilZero.string_of_uint.
  destruct (Nat.to_uint n) as [|d|d|d|d|d|d|d|d|d|d];
    (split; [|discriminate]); try reflexivity;
    match goal with
    | |- digits_only (NilEmpty.string_of_uint ?u) = true =>
        exact (string_of_uint_digits u)
    end.
Qed.

Lemma skip_digits_append ds c r :
  digits_only ds = true -> Py.isdigit c = false ->
  REGEX_ITEM.skip_digits (ds ++ String c r) = String c r.
Proof.
  intros Hds Hc. induction ds as [|d ds IH]; cbn.
  - now rewrite Hc.
  - cbn in Hds. apply andb_prop in Hds. destruct Hds as [Hd Hds].
    rewrite Hd. now apply IH.
Qed.

Lemma match_marker ds r :
  digits_only ds = true -> ds <> "" ->
  REGEX_ITEM.match_ (ds ++ String Py.DOT r) = Some r.
Proof.
  intros Hds Hne. destruct ds as [|d ds]; [contradiction|].
  cbn in Hds. apply andb_prop in Hds. destruct Hds as [Hd Hds].
  cbn [append REGEX_ITEM.match_]. rewrite Hd.
  rewrite skip_digits_append by (auto; reflexivity).
  reflexivity.
Qed.

Lemma sub_empty_cons c s :
  REGEX_ITEM.sub_empty (String c s)
  = match REGEX_ITEM.match_ (String c s) with
    | Some rest => REGEX_ITEM.sub_empty rest
    | None => String c (REGEX_ITEM.sub_empty s)
    end.
Proof.
  simp sub_empty.
  generalize (REGEX_ITEM.inspect (REGEX_ITEM.match_ (String c s))).
  intros [[rest|] e].
  - transitivity (REGEX_ITEM.sub_empty rest); [reflexivity | now rewrite e].
  - transitivity (String c (REGEX_ITEM.sub_empty s));
      [reflexivity | now rewrite e].
Qed.

Lemma search_cons c s :
  REGEX_ITEM.search (String c s) = false ->
  REGEX_ITEM.match_ (String c s) = None /\ REGEX_ITEM.search s = false.
Proof.
  intros H. change (match REGEX_ITEM.match_ (String c s) with
                    | Some _ => true
                    | None => REGEX_ITEM.search s
                    end = false) in H.
  destruct (REGEX_ITEM.match_ (String c s)); [discriminate | now split].
Qed.

Lemma sub_empty_without_marker s :
  REGEX_ITEM.search s = false -> REGEX_ITEM.sub_empty s = s.
Proof.
  induction s as [|c s IH]; intros H; [reflexivity|].
  apply search_cons in H. destruct H as [Hm Hs].
  rewrite sub_empty_cons, Hm, IH by exact Hs. reflexivity.
Qed.

(** ** Lines *)

Lemma prefix_empty s : String.prefix "" s = true.
Proof. destruct s; reflexivity. Qed.

Lemma contains_one_char c s : Py.contains (String c "") s = mentions c s.
Proof.
  induction s as [|x s IH]; [reflexivity|].
  cbn [Py.contains mentions String.prefix]. rewrite IH, prefix_empty.
  destruct (ascii_dec c x) as [->|Hne].
  - now rewrite Ascii.eqb_refl.
  - replace (Ascii.eqb x c) with false; [reflexivity|].
    symmetry. apply Ascii.eqb_neq. congruence.
Qed.

Lemma mentions_append c a b : mentions c (a ++ b) = mentions c a || mentions c b.
Proof.
  induction a as [|x a IH]; [reflexivity|].
  cbn [append mentions]. now rewrite IH, orb_assoc.
Qed.

Lemma digits_mention_no c ds :
  Py.isdigit c = false -> digits_only ds = true -> mentions c ds = false.
Proof.
  intros Hc. induction ds as [|d ds IH]; [reflexivity|].
  cbn. intros H. apply andb_prop in H. destruct H as [Hd Hds].
  rewrite IH by exact Hds. rewrite orb_false_r.
  apply Ascii.eqb_neq. intros ->. congruence.
Qed.

Lemma split_nonempty sep s : Py.split sep s <> [].
Proof.
  destruct s as [|c s]; cbn; [discriminate|].
  destruct (Ascii.eqb c sep); [discriminate|].
  destruct (Py.split sep s); discriminate.
Qed.

Lemma split_without_sep sep s : mentions sep s = false -> Py.split sep s = [s].
Proof.
  induction s as [|c s IH]; [reflexivity|].
  cbn [mentions Py.split]. intros H. apply orb_false_elim in H.
  destruct H as [Hc Hs]. rewrite Hc, IH by exact Hs. reflexivity.
Qed.

Lemma split_at_sep sep a b :
  mentions sep a = false ->
  Py.split sep (a ++ String sep b) = a :: Py.split sep b.
Proof.
  induction a as [|c a IH]; intros H.
  - cbn. now rewrite Ascii.eqb_refl.
  - cbn [mentions] in H. apply orb_false_elim in H. destruct H as [Hc Ha].
    cbn [append Py.split]. rewrite Hc, IH by exact Ha. reflexivity.
Qed.

Lemma split_join_lines line lines :
  (forall x, In x (line :: lines) -> mentions Py.LF x = false) ->
  Py.split Py.LF (Py.join Py.nl (line :: lines)) = line :: lines.
Proof.
  revert line. induction lines as [|next lines IH]; intros line H.
  - cbn. apply split_without_sep. apply H. now left.
  - change (Py.join Py.nl (line :: next :: lines))
      with (line ++ String Py.LF (Py.join Py.nl (next :: lines))).
    rewrite split_at_sep by (apply H; now left).
    rewrite IH; [reflexivity|]. intros x Hx. apply H. now right.
Qed.

(** ** [strip] *)

Lemma rstrip_keeps_first c s : Py.isspace c = false -> Py.rstrip (String c s) <> "".
Proof.
  intros Hc. cbn. destruct (Py.rstrip s); [rewrite Hc|]; discriminate.
Qed.

Lemma strip_truthy c s : Py.isspace c = false -> Py.truthy (Py.strip (String c s)) = true.
Proof.
  intros Hc. unfold Py.strip. cbn [Py.lstrip]. rewrite Hc.
  pose proof (rstrip_keeps_first c s Hc) as H.
  destruct (Py.rstrip (String c s)); [contradiction | reflexivity].
Qed.

Lemma strip_space c s : Py.isspace c = true -> Py.strip (String c s) = Py.strip s.
Proof. intros Hc. unfold Py.strip. cbn [Py.lstrip]. now rewrite Hc. Qed.

(** ** The round trip of [parse_response] *)

(** C2, as stated, fails: the item [v3.5] comes back as [v5]. *)
Lemma numbered_round_trip_fails : ~ numbered_round_trip.
Proof.
  intros H. specialize (H ["v3.5"]).
  assert (Hin : forall x, In x ["v3.5"] -> Py.contains Py.nl x = false).
  { intros x [<-|[]]. reflexivity. }
  specialize (H Hin). vm_compute in H. discriminate H.
Qed.

Lemma numbered_line_parsed i item :
  mentions Py.LF item = false ->
  REGEX_ITEM.search item = false ->
  let line := Py.str_of_nat i ++ ". " ++ item in
  mentions Py.LF line = false
  /\ Py.truthy (Py.strip line) = true
  /\ Py.strip (REGEX_ITEM.sub_empty line) = Py.strip item.
Proof.
  intros Hlf Hsearch line. unfold line.
  destruct (str_of_nat_digits i) as [Hds Hne].
  split; [|split].
  - rewrite mentions_append, digits_mention_no by (auto; reflexivity).
    cbn. exact Hlf.
  - destruct (Py.str_of_nat i) as [|d ds]; [contradiction|].
    cbn in Hds. apply andb_prop in Hds. destruct Hds as [Hd _].
    cbn [append]. apply strip_truthy. now apply digit_not_space.
  - destruct (Py.str_of_nat i) as [|d ds] eqn:E; [contradiction|].
    rewrite <- E.
    change (Py.str_of_nat i ++ ". " ++ item)
      with (Py.str_of_nat i ++ String Py.DOT (String " " item)).
    assert (Hm : REGEX_ITEM.match_ (Py.str_of_nat i
                                    ++ String Py.DOT (String " " item))
                 = Some (String " " item)).
    { apply match_marker; rewrite E; [exact Hds | discriminate]. }
    rewrite E in Hm |- *. cbn [append] in Hm |- *.
    rewrite sub_empty_cons, Hm.
    rewrite sub_empty_cons. cbn [REGEX_ITEM.match_].
    replace (Py.isdigit " ") with false by reflexivity.
    rewrite sub_empty_without_marker by exact Hsearch.
    now apply strip_space.
Qed.

Lemma parse_numbered lines items i :
  (forall x, In x items ->
             mentions Py.LF x = false /\ REGEX_ITEM.search x = false) ->
  lines = numbered i items ->
  map (fun x => Py.strip (REGEX_ITEM.sub_empty x))
      (filter (fun x => Py.truthy (Py.strip x)) lines)
  = map Py.strip items
  /\ (forall x, In x lines -> mentions Py.LF x = false).
Proof.
  revert lines i. induction items as [|item items IH]; intros lines i H ->.
  - split; [reflexivity | intros x []].
  - destruct (H item (or_introl eq_refl)) as [Hlf Hsearch].
    destruct (numbered_line_parsed i item Hlf Hsearch) as (Hl & Ht & Hs).
    destruct (IH (numbered (S i) items) (S i)) as [Hrest Hlfs];
      [intros x Hx; apply H; now right | reflexivity |].
    cbn [numbered filter]. rewrite Ht. cbn [map]. rewrite Hs, Hrest.
    split; [reflexivity|].
    intros x [<-|Hx]; [exact Hl | now apply Hlfs].
Qed.

(** C2 (amended).  For every list of strings none of which contains a line
    feed or a run of digits followed by a period, numbering the items from
    1 (the number, a period and a space before each item), joining them with
    line feeds and parsing the text gives each item back, stripped of the
    whitespace around it. *)
Theorem parse_response_round_trip (items : list string) :
  (forall x, In x items ->
             Py.contains Py.nl x = false /\ REGEX_ITEM.search x = false) ->
  parse_response (numbered_text items) = map Py.strip items.
Proof.
  intros H.
  assert (H' : forall x, In x items ->
                         mentions Py.LF x = false /\ REGEX_ITEM.search x = false).
  { intros x Hx. destruct (H x Hx) as [Hc Hs].
    split; [|exact Hs]. now rewrite <- contains_one_char. }
  destruct (parse_numbered (numbered 1 items) items 1 H' eq_refl) as [Hparse Hlf].
  unfold parse_response, numbered_text.
  destruct (numbered 1 items) as [|line lines] eqn:E.
  - destruct items; [reflexivity | discriminate].
  - rewrite split_join_lines by exact Hlf. exact Hparse.
Qed.

Lemma parse_response_round_trip_witness :
  parse_response (numbered_text ["uno"; " dos y tres "; "4 runas"])
  = map Py.strip ["uno"; " dos y tres "; "4 runas"].
Proof.
  apply (parse_response_round_trip ["uno"; " dos y tres "; "4 runas"]).
  intros x [<-|[<-|[<-|[]]]]; split; reflexivity.
Defined.

(** ** What [parse_response] removes *)

(** C3, as stated, fails: in the line [1. runa 3.5 veces] the [3.] inside
    the line is removed with the leading [1.]. *)
Lemma inner_marker_removed_too : ~ only_leading_marker_removed.
Proof.
  intros H. specialize (H "1. runa 3.5 veces").
  vm_compute in H. discriminate H.
Qed.

Lemma match_two_digits c e t :
  Py.isdigit c = true -> Py.isdigit e = true ->
  REGEX_ITEM.match_ (String c (String e t)) = REGEX_ITEM.match_ (String e t).
Proof. intros Hc He. cbn. now rewrite Hc, He. Qed.

Lemma match_digit_other c e t :
  Py.isdigit c = true -> Py.isdigit e = false ->
  REGEX_ITEM.match_ (String c (String e t))
  = if Ascii.eqb e Py.DOT then Some t else None.
Proof. intros Hc He. cbn. now rewrite Hc, He. Qed.

Lemma match_not_digit c t :
  Py.isdigit c = false -> REGEX_ITEM.match_ (String c t) = None.
Proof. intros Hc. cbn. now rewrite Hc. Qed.

(** A run of digits that the pattern does not match inside [a] is not
    matched either when more text follows [a], unless [a] ends in the
    run. *)
Lemma match_none_inside a' : forall c x,
  Py.isdigit c = true ->
  REGEX_ITEM.match_ (String c a') = None ->
  ends_with_digit (String c a') = false ->
  REGEX_ITEM.match_ (String c (a' ++ x)) = None.
Proof.
  induction a' as [|e a'' IH]; intros c x Hc Hm Hend.
  - cbn in Hend. congruence.
  - cbn [append]. destruct (Py.isdigit e) eqn:He.
    + rewrite match_two_digits in Hm |- * by assumption.
      apply IH; assumption.
    + rewrite match_digit_other in Hm |- * by assumption.
      destruct (Ascii.eqb e Py.DOT); [discriminate | reflexivity].
Qed.

Lemma sub_empty_deletes_marker a : forall ds b,
  REGEX_ITEM.search a = false ->
  ends_with_digit a = false ->
  digits_only ds = true -> ds <> "" ->
  REGEX_ITEM.sub_empty (a ++ ds ++ String Py.DOT b)
  = a ++ REGEX_ITEM.sub_empty b.
Proof.
  induction a as [|c a' IH]; intros ds b Hs Hend Hds Hne.
  - cbn [append]. destruct ds as [|d ds'] eqn:E; [contradiction|].
    rewrite <- E in *. pose proof (match_marker ds b Hds Hne) as Hm.
    rewrite E in Hm |- *. cbn [append] in Hm |- *.
    now rewrite sub_empty_cons, Hm.
  - apply search_cons in Hs. destruct Hs as [Hm Hs].
    assert (Hend' : ends_with_digit a' = false).
    { destruct a'; [reflexivity | exact Hend]. }
    cbn [append]. rewrite sub_empty_cons.
    assert (Hnone : REGEX_ITEM.match_ (String c (a' ++ ds ++ String Py.DOT b))
                    = None).
    { destruct (Py.isdigit c) eqn:Hc.
      - now apply match_none_inside.
      - now apply match_not_digit. }
    rewrite Hnone, IH by assumption. reflexivity.
Qed.

(** A digit that the scan keeps is not followed, in the result, by a
    period after its run. *)
Lemma match_none_kept s' : forall c,
  Py.isdigit c = true ->
  REGEX_ITEM.match_ (String c s') = None ->
  REGEX_ITEM.match_ (String c (REGEX_ITEM.sub_empty s')) = None.
Proof.
  induction s' as [|e t IH]; intros c Hc Hm; [exact Hm|].
  destruct (Py.isdigit e) eqn:He.
  - rewrite match_two_digits in Hm by assumption.
    rewrite sub_empty_cons, Hm.
    rewrite match_two_digits by assumption. now apply IH.
  - rewrite match_digit_other in Hm by assumption.
    rewrite sub_empty_cons, (match_not_digit e t He).
    rewrite match_digit_other by assumption.
    destruct (Ascii.eqb e Py.DOT); [discriminate | reflexivity].
Qed.

Lemma search_sub_empty_bounded n : forall s,
  String.length s <= n -> REGEX_ITEM.search (REGEX_ITEM.sub_empty s) = false.
Proof.
  induction n as [|n IH]; intros s Hlen.
  - destruct s; [reflexivity | cbn in Hlen; lia].
  - destruct s as [|c s']; [reflexivity|].
    rewrite sub_empty_cons.
    destruct (REGEX_ITEM.match_ (String c s')) as [rest|] eqn:Hm.
    + apply IH. apply match_length in Hm. lia.
    + change (match REGEX_ITEM.match_ (String c (REGEX_ITEM.sub_empty s')) with
              | Some _ => true
              | None => REGEX_ITEM.search (REGEX_ITEM.sub_empty s')
              end = false).
      assert (Hkept : REGEX_ITEM.match_ (String c (REGEX_ITEM.sub_empty s'))
                      = None).
      { destruct (Py.isdigit c) eqn:Hc.
        - now apply match_none_kept.
        - now apply match_not_digit. }
      rewrite Hkept. apply IH. cbn in Hlen. lia.
Qed.

Lemma search_sub_empty s : REGEX_ITEM.search (REGEX_ITEM.sub_empty s) = false.
Proof. now apply (search_sub_empty_bounded (String.length s)). Qed.

Lemma search_lstrip s :
  REGEX_ITEM.search s = false -> REGEX_ITEM.search (Py.lstrip s) = false.
Proof.
  induction s as [|c s IH]; intros H; [reflexivity|].
  cbn [Py.lstrip]. destruct (Py.isspace c); [|exact H].
  apply IH. now apply search_cons in H.
Qed.

Lemma skip_digits_more p q d r :
  REGEX_ITEM.skip_digits p = String d r ->
  REGEX_ITEM.skip_digits (p ++ q) = String d (r ++ q).
Proof.
  induction p as [|c p IH]; cbn; [discriminate|].
  destruct (Py.isdigit c); [exact IH|].
  now intros [= <- <-].
Qed.

Lemma match_more p q r :
  REGEX_ITEM.match_ p = Some r -> REGEX_ITEM.match_ (p ++ q) = Some (r ++ q).
Proof.
  destruct p as [|c p]; cbn [append REGEX_ITEM.match_]; [discriminate|].
  destruct (Py.isdigit c); [|discriminate].
  destruct (REGEX_ITEM.skip_digits p) as [|d t] eqn:E; [discriminate|].
  rewrite (skip_digits_more p q d t E).
  destruct (Ascii.eqb d Py.DOT); [|discriminate].
  now intros [= <-].
Qed.

Lemma search_prefix p q :
  REGEX_ITEM.search (p ++ q) = false -> REGEX_ITEM.search p = false.
Proof.
  induction p as [|c p IH]; intros H; [reflexivity|].
  cbn [append] in H. apply search_cons in H. destruct H as [Hm Hs].
  change (match REGEX_ITEM.match_ (String c p) with
          | Some _ => true
          | None => REGEX_ITEM.search p
          end = false).
  destruct (REGEX_ITEM.match_ (String c p)) as [r|] eqn:E.
  - apply (match_more _ q) in E. cbn [append] in E. congruence.
  - now apply IH.
Qed.

Lemma rstrip_is_prefix s : exists q, s = Py.rstrip s ++ q.
Proof.
  induction s as [|c s [q IH]]; [now exists ""|].
  cbn [Py.rstrip]. destruct (Py.rstrip s) as [|x r].
  - destruct (Py.isspace c).
    + now exists (String c s).
    + exists s. reflexivity.
  - exists q. cbn [append]. f_equal. exact IH.
Qed.

Lemma search_strip s :
  REGEX_ITEM.search s = false -> REGEX_ITEM.search (Py.strip s) = false.
Proof.
  intros H. unfold Py.strip. apply search_lstrip in H.
  destruct (rstrip_is_prefix (Py.lstrip s)) as [q Hq].
  rewrite Hq in H. now apply search_prefix in H.
Qed.

Lemma split_append sep a b :
  Py.split sep (a ++ String sep b) = (Py.split sep a ++ Py.split sep b)%list.
Proof.
  induction a as [|c a IH].
  - cbn. now rewrite Ascii.eqb_refl.
  - cbn [append Py.split]. rewrite IH.
    destruct (Ascii.eqb c sep); [reflexivity|].
    pose proof (split_nonempty sep a) as Hne.
    destruct (Py.split sep a); [contradiction | reflexivity].
Qed.

(** C3 (amended).  [parse_response] works line by line, in order: the items
    of a text with a line feed in it are the items of the part before the
    line feed followed by the items of the part after it, a blank line gives
    no item and any other line gives one.  In that item every run of digits
    followed by a period is removed, wherever it stands in the line, and the
    rest is stripped: no item contains such a run, a line without one is
    only stripped, and a run that follows a text without one is deleted
    with its period. *)
Theorem parse_response_removes_every_marker (response : string) :
  (forall a b,
      parse_response (a ++ Py.nl ++ b)
      = (parse_response a ++ parse_response b)%list)
  /\ (forall line,
        mentions Py.LF line = false ->
        parse_response line
        = if Py.truthy (Py.strip line)
          then [Py.strip (REGEX_ITEM.sub_empty line)] else [])
  /\ (forall item, In item (parse_response response) ->
                   REGEX_ITEM.search item = false)
  /\ (forall line,
        REGEX_ITEM.search line = false -> REGEX_ITEM.sub_empty line = line)
  /\ (forall a ds b,
        REGEX_ITEM.search a = false -> ends_with_digit a = false ->
        digits_only ds = true -> ds <> "" ->
        REGEX_ITEM.sub_empty (a ++ ds ++ "." ++ b)
        = a ++ REGEX_ITEM.sub_empty b).
Proof.
  split; [|split; [|split; [|split]]].
  - intros a b. unfold parse_response.
    change (a ++ Py.nl ++ b) with (a ++ String Py.LF b).
    now rewrite split_append, filter_app, map_app.
  - intros line Hlf. unfold parse_response.
    rewrite split_without_sep by exact Hlf. cbn [filter].
    destruct (Py.truthy (Py.strip line)); reflexivity.
  - intros item Hin. unfold parse_response in Hin.
    apply in_map_iff in Hin. destruct Hin as (line & <- & _).
    apply search_strip, search_sub_empty.
  - apply sub_empty_without_marker.
  - intros a ds b Hs Hend Hds Hne.
    now apply sub_empty_deletes_marker.
Qed.

Lemma parse_response_removes_every_marker_witness :
  parse_response ("1. uno" ++ Py.nl ++ "2. dos")
  = (parse_response "1. uno" ++ parse_response "2. dos")%list
  /\ parse_response "1. runa 3.5 veces"
     = [Py.strip (REGEX_ITEM.sub_empty "1. runa 3.5 veces")]
  /\ REGEX_ITEM.search "runa 5 veces" = false
  /\ REGEX_ITEM.sub_empty "sin marca" = "sin marca"
  /\ REGEX_ITEM.sub_empty ("runa " ++ "3" ++ "." ++ "5 veces")
     = "runa " ++ REGEX_ITEM.sub_empty "5 veces".
Proof.
  destruct (parse_response_removes_every_marker "1. runa 3.5 veces")
    as (Hlines & Hline & Hitems & Hkeep & Hdel).
  split; [apply Hlines|]. split; [|split; [|split]].
  - apply (Hline "1. runa 3.5 veces"). reflexivity.
  - apply Hitems. vm_compute. now left.
  - apply Hkeep. reflexivity.
  - apply Hdel; [reflexivity | reflexivity | reflexivity | discriminate].
Defined.

(** ** The prompt for the alternatives *)

Lemma prefix_before_sep n : forall a c b,
  mentions c n = false ->
  String.prefix n (a ++ String c b) = String.prefix n a.
Proof.
  induction n as [|x n IH]; intros a c b Hc.
  - now rewrite !prefix_empty.
  - cbn [mentions] in Hc. apply orb_false_elim in Hc. destruct Hc as [Hx Hn].
    destruct a as [|y a]; cbn [append String.prefix].
    + destruct (ascii_dec x c) as [->|_]; [|reflexivity].
      rewrite Ascii.eqb_refl in Hx. discriminate.
    + destruct (ascii_dec x y); [now apply IH | reflexivity].
Qed.

Lemma contains_empty_text n : n <> "" -> Py.contains n "" = false.
Proof. destruct n; [contradiction | reflexivity]. Qed.

(** A needle without the character [c] lies on one side of a [c]. *)
Lemma contains_around_sep n a c b :
  n <> "" -> mentions c n = false ->
  Py.contains n (a ++ String c b) = Py.contains n a || Py.contains n b.
Proof.
  intros Hne Hc. induction a as [|y a IH].
  - pose proof (prefix_before_sep n "" c b Hc) as Hp.
    cbn [append] in Hp. cbn [append Py.contains]. rewrite Hp.
    destruct n; [contradiction | reflexivity].
  - pose proof (prefix_before_sep n (String y a) c b Hc) as Hp.
    cbn [append] in Hp. cbn [append Py.contains]. rewrite IH, Hp.
    now rewrite orb_assoc.
Qed.

Lemma prefix_self n b : String.prefix n (n ++ b) = true.
Proof.
  induction n as [|x n IH]; [apply prefix_empty|].
  cbn [append String.prefix]. destruct (ascii_dec x x); [exact IH | contradiction].
Qed.

Lemma contains_at_start n s : String.prefix n s = true -> Py.contains n s = true.
Proof. intros H. destruct s; cbn [Py.contains]; now rewrite H. Qed.

Lemma contains_inserted n a b : Py.contains n (a ++ n ++ b) = true.
Proof.
  induction a as [|y a IH].
  - cbn [append]. apply contains_at_start, prefix_self.
  - cbn [append Py.contains]. rewrite IH. apply orb_true_r.
Qed.

(** C8, as stated, fails: the description of a normal rune may hold the
    word, and the prompt holds the description. *)
Lemma normal_prompt_may_hold_invertida : ~ normal_prompt_without_invertida.
Proof.
  intros H.
  specialize (H "RUNA FEHU" "lo contrario de la runa invertida" None None).
  vm_compute in H. discriminate H.
Qed.

Lemma prompt_shape rune_name invert text :
  PROMPT_TO_GENERATE rune_name invert text
  = prompt_head ++ rune_name ++ invert ++ ": " ++ text
    ++ prompt_middle ++ rune_name ++ invert ++ Py.nl.
Proof.
  unfold PROMPT_TO_GENERATE, prompt_head, prompt_middle.
  now rewrite !append_assoc.
Qed.

Lemma contains_in_template n head middle shown text :
  n <> "" ->
  mentions " " n = false -> mentions ":" n = false -> mentions Py.LF n = false ->
  Py.contains n head = false -> Py.contains n middle = false ->
  Py.contains n
    (head ++ String " " (shown ++ String ":" ("" ++ String " "
       (text ++ String Py.LF (middle ++ String " " (shown ++ String Py.LF ""))))))
  = Py.contains n shown || Py.contains n text.
Proof.
  intros Hne Hsp Hcolon Hlf Hhead Hmiddle.
  rewrite (contains_around_sep n head " ") by assumption.
  rewrite (contains_around_sep n shown ":") by assumption.
  rewrite (contains_around_sep n "" " ") by assumption.
  rewrite (contains_around_sep n text Py.LF) by assumption.
  rewrite (contains_around_sep n middle " ") by assumption.
  rewrite (contains_around_sep n shown Py.LF) by assumption.
  rewrite Hhead, Hmiddle, (contains_empty_text n Hne).
  destruct (Py.contains n shown), (Py.contains n text); reflexivity.
Qed.

Lemma contains_normal_prompt shown text :
  Py.contains "invertida"
    (prompt_head ++ shown ++ ": " ++ text ++ prompt_middle ++ shown ++ Py.nl)
  = Py.contains "invertida" shown || Py.contains "invertida" text.
Proof.
  change (prompt_head ++ shown ++ ": " ++ text ++ prompt_middle ++ shown ++ Py.nl)
    with (("Escribe 10 p" ++ Py.a_acute ++ "rrafos que sean variaci"
           ++ Py.o_acute ++ "n del siguiente p" ++ Py.a_acute ++ "rrafo:"
           ++ Py.nl ++ Py.nl ++ "la runa")
          ++ String " " (shown ++ String ":" ("" ++ String " "
               (text ++ String Py.LF
                  ((Py.nl ++ "Pero no te salgas de la runa")
                   ++ String " " (shown ++ String Py.LF "")))))).
  apply contains_in_template; solve [discriminate | reflexivity].
Qed.

(** C8 (amended).  In the prompt for an inverted rune each of the two
    occurrences of the displayed rune name is followed at once by a space
    and the word [invertida], so the prompt contains the word.  In the
    prompt for a normal rune nothing stands between each occurrence of the
    name and the text of the template that follows it, and the prompt
    contains the word exactly when the displayed name or the description
    does. *)
Theorem alternatives_prompt_invertida
    (rune_name description : string)
    (alternatives summaries : option (list string)) :
  let shown := get_only_the_rune_name rune_name in
  let inverted := inverted_rune rune_name description alternatives summaries in
  let normal := normal_rune rune_name description alternatives summaries in
  alternatives_prompt inverted
  = prompt_head ++ shown ++ " invertida" ++ ": " ++ description
    ++ prompt_middle ++ shown ++ " invertida" ++ Py.nl
  /\ Py.contains "invertida" (alternatives_prompt inverted) = true
  /\ alternatives_prompt normal
     = prompt_head ++ shown ++ ": " ++ description
       ++ prompt_middle ++ shown ++ Py.nl
  /\ Py.contains "invertida" (alternatives_prompt normal)
     = Py.contains "invertida" shown || Py.contains "invertida" description.
Proof.
  intros shown inverted normal.
  assert (Hinv : alternatives_prompt inverted
                 = prompt_head ++ shown ++ " invertida" ++ ": " ++ description
                   ++ prompt_middle ++ shown ++ " invertida" ++ Py.nl).
  { unfold alternatives_prompt, inverted, inverted_rune.
    cbn [RuneDefinition.rune_name RuneDefinition.type RuneDefinition.description].
    apply prompt_shape. }
  assert (Hnor : alternatives_prompt normal
                 = prompt_head ++ shown ++ ": " ++ description
                   ++ prompt_middle ++ shown ++ Py.nl).
  { unfold alternatives_prompt, normal, normal_rune.
    cbn [RuneDefinition.rune_name RuneDefinition.type RuneDefinition.description].
    apply (prompt_shape _ ""). }
  split; [exact Hinv|]. split; [|split; [exact Hnor|]].
  - rewrite Hinv.
    replace (prompt_head ++ shown ++ " invertida" ++ ": " ++ description
             ++ prompt_middle ++ shown ++ " invertida" ++ Py.nl)
      with ((prompt_head ++ shown ++ " ") ++ "invertida"
            ++ (": " ++ description ++ prompt_middle ++ shown
                ++ " invertida" ++ Py.nl))
      by (now rewrite !append_assoc).
    apply contains_inserted.
  - rewrite Hnor. apply contains_normal_prompt.
Qed.

(** * Further properties *)

(** ** [parse_response] on blank and marker-only text *)

Lemma strip_truthy_iff x : Py.truthy (Py.strip x) = negb (all_space x).
Proof.
  induction x as [|c x IH]; [reflexivity|].
  cbn [all_space]. destruct (Py.isspace c) eqn:Hc.
  - rewrite strip_space by exact Hc. exact IH.
  - now rewrite strip_truthy.
Qed.

Lemma isspace_LF : Py.isspace Py.LF = true.
Proof. reflexivity. Qed.

Lemma all_space_split s :
  forallb all_space (Py.split Py.LF s) = all_space s.
Proof.
  induction s as [|c s IH]; [reflexivity|].
  cbn [Py.split all_space]. destruct (Ascii.eqb c Py.LF) eqn:Hc.
  - apply Ascii.eqb_eq in Hc. subst c. cbn [forallb all_space].
    now rewrite IH, isspace_LF.
  - pose proof (split_nonempty Py.LF s) as Hne.
    destruct (Py.split Py.LF s) as [|piece pieces]; [contradiction|].
    cbn [forallb all_space] in IH |- *. rewrite <- IH. now rewrite andb_assoc.
Qed.

Lemma no_line_kept_iff (pieces : list string) :
  filter (fun x => Py.truthy (Py.strip x)) pieces = []
  <-> forallb all_space pieces = true.
Proof.
  induction pieces as [|x pieces IH]; [now split|].
  cbn [filter forallb]. rewrite strip_truthy_iff.
  destruct (all_space x); cbn [negb andb].
  - exact IH.
  - split; discriminate.
Qed.

(** X1.  [parse_response] returns no item exactly when every character of
    the text is whitespace; the empty text is such a text. *)
Theorem parse_response_empty_iff_blank (response : string) :
  parse_response response = [] <-> all_space response = true.
Proof.
  unfold parse_response. rewrite <- all_space_split, <- no_line_kept_iff.
  split.
  - apply map_eq_nil.
  - now intros ->.
Qed.

(** X4.  A line that holds nothing but a marker gives an empty item: the
    blank lines are dropped before the markers are removed, not after. *)
Theorem parse_response_marker_only (ds : string) :
  digits_only ds = true -> ds <> "" ->
  parse_response (ds ++ ".") = [""].
Proof.
  intros Hds Hne. unfold parse_response.
  assert (Hlf : mentions Py.LF (ds ++ ".") = false).
  { rewrite mentions_append, digits_mention_no by (auto; reflexivity).
    reflexivity. }
  rewrite split_without_sep by exact Hlf. cbn [filter].
  assert (Ht : Py.truthy (Py.strip (ds ++ ".")) = true).
  { destruct ds as [|d ds']; [contradiction|].
    cbn in Hds. apply andb_prop in Hds. destruct Hds as [Hd _].
    cbn [append]. apply strip_truthy. now apply digit_not_space. }
  rewrite Ht. cbn [map]. f_equal.
  pose proof (match_marker ds "" Hds Hne) as Hm.
  change (ds ++ ".") with (ds ++ String Py.DOT "").
  destruct ds as [|d ds']; [contradiction|].
  cbn [append] in Hm |- *. now rewrite sub_empty_cons, Hm.
Qed.

Lemma parse_response_marker_only_witness : parse_response ("12" ++ ".") = [""].
Proof. apply (parse_response_marker_only "12"); [reflexivity | discriminate]. Defined.

(** ** The items of [parse_response] *)

Lemma rstrip_idempotent t : Py.rstrip (Py.rstrip t) = Py.rstrip t.
Proof.
  induction t as [|c t IH]; [reflexivity|].
  cbn [Py.rstrip]. destruct (Py.rstrip t) as [|x r] eqn:E.
  - destruct (Py.isspace c) eqn:Hc; [reflexivity|].
    cbn [Py.rstrip]. now rewrite Hc.
  - change (Py.rstrip (String c (String x r)))
      with (match Py.rstrip (String x r) with
            | "" => if Py.isspace c then "" else String c ""
            | String y r' => String c (String y r')
            end).
    now rewrite IH.
Qed.

Lemma lstrip_rstrip_lstrip s :
  Py.lstrip (Py.rstrip (Py.lstrip s)) = Py.rstrip (Py.lstrip s).
Proof.
  induction s as [|c s IH]; [reflexivity|].
  cbn [Py.lstrip]. destruct (Py.isspace c) eqn:Hc; [exact IH|].
  pose proof (rstrip_keeps_first c s Hc) as Hne.
  cbn [Py.rstrip] in Hne |- *.
  destruct (Py.rstrip s) as [|x r].
  - rewrite Hc. cbn [Py.lstrip]. now rewrite Hc.
  - cbn [Py.lstrip]. now rewrite Hc.
Qed.

Lemma strip_idempotent s : Py.strip (Py.strip s) = Py.strip s.
Proof.
  unfold Py.strip. now rewrite lstrip_rstrip_lstrip, rstrip_idempotent.
Qed.

Lemma split_pieces_without_sep sep s :
  forall x, In x (Py.split sep s) -> mentions sep x = false.
Proof.
  induction s as [|c s IH]; intros x Hx.
  - destruct Hx as [<-|[]]. reflexivity.
  - cbn [Py.split] in Hx. destruct (Ascii.eqb c sep) eqn:Hc.
    + destruct Hx as [<-|Hx]; [reflexivity | now apply IH].
    + destruct (Py.split sep s) as [|piece pieces].
      * destruct Hx as [<-|[]]. cbn. now rewrite Hc.
      * destruct Hx as [<-|Hx].
        -- cbn [mentions]. rewrite Hc. apply IH. now left.
        -- apply IH. now right.
Qed.

Lemma mentions_lstrip c s : mentions c s = false -> mentions c (Py.lstrip s) = false.
Proof.
  induction s as [|x s IH]; intros H; [reflexivity|].
  cbn [Py.lstrip]. destruct (Py.isspace x); [|exact H].
  apply IH. cbn [mentions] in H. now apply orb_false_elim in H.
Qed.

Lemma mentions_strip c s : mentions c s = false -> mentions c (Py.strip s) = false.
Proof.
  intros H. unfold Py.strip. apply mentions_lstrip in H.
  destruct (rstrip_is_prefix (Py.lstrip s)) as [q Hq].
  rewrite Hq, mentions_append in H. now apply orb_false_elim in H.
Qed.

Lemma mentions_skip_digits c s :
  mentions c s = false -> mentions c (REGEX_ITEM.skip_digits s) = false.
Proof.
  induction s as [|x s IH]; intros H; [reflexivity|].
  cbn [REGEX_ITEM.skip_digits]. destruct (Py.isdigit x); [|exact H].
  apply IH. cbn [mentions] in H. now apply orb_false_elim in H.
Qed.

Lemma mentions_match c s rest :
  REGEX_ITEM.match_ s = Some rest -> mentions c s = false ->
  mentions c rest = false.
Proof.
  destruct s as [|x s]; cbn [REGEX_ITEM.match_]; [discriminate|].
  destruct (Py.isdigit x); [|discriminate].
  intros Hm H. cbn [mentions] in H. apply orb_false_elim in H.
  destruct H as [_ H]. apply mentions_skip_digits in H.
  destruct (REGEX_ITEM.skip_digits s) as [|d t]; [discriminate|].
  destruct (Ascii.eqb d Py.DOT); [|discriminate].
  injection Hm as <-. cbn [mentions] in H. now apply orb_false_elim in H.
Qed.

Lemma mentions_sub_empty_bounded c n : forall s,
  String.length s <= n -> mentions c s = false ->
  mentions c (REGEX_ITEM.sub_empty s) = false.
Proof.
  induction n as [|n IH]; intros s Hlen H.
  - destruct s; [reflexivity | cbn in Hlen; lia].
  - destruct s as [|x s']; [reflexivity|].
    rewrite sub_empty_cons.
    destruct (REGEX_ITEM.match_ (String x s')) as [rest|] eqn:Hm.
    + apply IH.
      * apply match_length in Hm. lia.
      * now apply (mentions_match c _ _ Hm).
    + cbn [mentions] in H |- *. apply orb_false_elim in H.
      destruct H as [Hx Hs]. rewrite Hx. apply IH; [cbn in Hlen; lia | exact Hs].
Qed.

Lemma mentions_sub_empty c s :
  mentions c s = false -> mentions c (REGEX_ITEM.sub_empty s) = false.
Proof. now apply (mentions_sub_empty_bounded c (String.length s)). Qed.

Lemma split_length sep s :
  List.length (Py.split sep s) = S (occurrences sep s).
Proof.
  induction s as [|c s IH]; [reflexivity|].
  cbn [Py.split occurrences]. destruct (Ascii.eqb c sep).
  - cbn [List.length]. now rewrite IH.
  - destruct (Py.split sep s) as [|piece pieces]; [discriminate|].
    cbn [List.length] in IH |- *. now rewrite IH.
Qed.

Lemma parse_response_items_clean_aux (response : string) :
  forall item, In item (parse_response response) ->
    Py.strip item = item /\ mentions Py.LF item = false
    /\ REGEX_ITEM.search item = false.
Proof.
  unfold parse_response. intros item Hin. apply in_map_iff in Hin.
  destruct Hin as (line & <- & Hline). apply filter_In in Hline.
  destruct Hline as [Hline _]. split; [apply strip_idempotent|]. split.
  - apply mentions_strip, mentions_sub_empty.
    now apply (split_pieces_without_sep Py.LF response).
  - apply search_strip, search_sub_empty.
Qed.

(** X2.  Every item that [parse_response] returns is a stripped text
    without a line feed, and there are at most as many items as the text has
    lines. *)
Theorem parse_response_items_clean (response : string) :
  (forall item, In item (parse_response response) ->
                Py.strip item = item /\ mentions Py.LF item = false)
  /\ List.length (parse_response response) <= S (occurrences Py.LF response).
Proof.
  split.
  - intros item Hin.
    destruct (parse_response_items_clean_aux response item Hin) as (H1 & H2 & _).
    now split.
  - unfold parse_response.
    rewrite length_map, <- split_length. apply filter_length_le.
Qed.

(** X3.  Parsing again what [parse_response] returned, joined with line
    feeds, gives the same items without the empty ones. *)
Theorem parse_response_again (response : string) :
  parse_response (Py.join Py.nl (parse_response response))
  = filter Py.truthy (parse_response response).
Proof.
  pose proof (parse_response_items_clean_aux response) as Hclean.
  destruct (parse_response response) as [|item items] eqn:E; [reflexivity|].
  unfold parse_response at 1.
  rewrite split_join_lines by (intros x Hx; now apply Hclean).
  rewrite (filter_ext_in _ Py.truthy).
  - rewrite <- (map_id (filter Py.truthy (item :: items))) at 2.
    apply map_ext_in. intros x Hx. apply filter_In in Hx. destruct Hx as [Hx _].
    destruct (Hclean x Hx) as (Hstrip & _ & Hsearch).
    now rewrite sub_empty_without_marker.
  - intros x Hx. destruct (Hclean x Hx) as (Hstrip & _). now rewrite Hstrip.
Qed.

(** ** The export text *)

Lemma create_string_from_list_lines items :
  create_string_from_list items = quoted_lines items.
Proof.
  unfold create_string_from_list. now rewrite create_string_loop_spec by lia.
Qed.

(** X5.  The export text is empty exactly for the empty list, so the
    assertion of [process_summaries] on its length holds exactly when there
    is a summary to copy. *)
Theorem create_string_from_list_empty_iff (items : list string) :
  create_string_from_list items = "" <-> items = [].
Proof.
  rewrite create_string_from_list_lines. split.
  - destruct items as [|item [|item' rest]]; [reflexivity | discriminate..].
  - now intros ->.
Qed.

(** X6.  Items are not escaped: an item that holds a double quote, a comma,
    a line feed and a double quote is exported as the text of two items. *)
Theorem create_string_from_list_not_injective (x y : string) (rest : list string) :
  create_string_from_list
    ((x ++ Py.dquote ++ "," ++ Py.nl ++ Py.dquote ++ y) :: rest)
  = create_string_from_list (x :: y :: rest).
Proof.
  rewrite !create_string_from_list_lines, quoted_lines_cons.
  destruct rest as [|item rest].
  - cbn [quoted_lines]. now rewrite !append_assoc.
  - rewrite !quoted_lines_cons. now rewrite !append_assoc.
Qed.

Lemma mentions_LF_quoted item tail :
  mentions Py.LF item = false -> mentions Py.LF tail = false ->
  mentions Py.LF (Py.dquote ++ item ++ Py.dquote ++ tail) = false.
Proof.
  intros Hi Ht. rewrite !mentions_append, Hi, Ht. reflexivity.
Qed.

(** X7.  When no item holds a line feed, the export text has one line per
    item: split on line feeds it gives the quoted items, each but the last
    with its comma, and an empty piece for the final line feed. *)
Theorem create_string_from_list_lines_back (items : list string) :
  (forall x, In x items -> mentions Py.LF x = false) ->
  Py.split Py.LF (create_string_from_list items)
  = (exported_lines items ++ [""])%list.
Proof.
  rewrite create_string_from_list_lines.
  induction items as [|item rest IH]; intros H; [reflexivity|].
  assert (Hitem : mentions Py.LF item = false) by (apply H; now left).
  assert (Hrest : forall x, In x rest -> mentions Py.LF x = false)
    by (intros x Hx; apply H; now right).
  destruct rest as [|item' rest'].
  - cbn [quoted_lines exported_lines app].
    replace (Py.dquote ++ item ++ Py.dquote ++ Py.nl)
      with ((Py.dquote ++ item ++ Py.dquote) ++ String Py.LF "")
      by (now rewrite !append_assoc).
    rewrite split_at_sep; [reflexivity|].
    rewrite <- (append_nil_r Py.dquote) at 2. now apply mentions_LF_quoted.
  - rewrite quoted_lines_cons.
    replace (Py.dquote ++ item ++ Py.dquote ++ "," ++ Py.nl
             ++ quoted_lines (item' :: rest'))
      with ((Py.dquote ++ item ++ Py.dquote ++ ",")
            ++ String Py.LF (quoted_lines (item' :: rest')))
      by (now rewrite !append_assoc).
    rewrite split_at_sep by (now apply mentions_LF_quoted).
    rewrite IH by exact Hrest. reflexivity.
Qed.

Lemma create_string_from_list_lines_back_witness :
  Py.split Py.LF (create_string_from_list ["uno"; "dos"])
  = (exported_lines ["uno"; "dos"] ++ [""])%list.
Proof.
  apply (create_string_from_list_lines_back ["uno"; "dos"]).
  intros x [<-|[<-|[]]]; reflexivity.
Defined.

(** ** The displayed rune name *)

Lemma drop_append a b : Py.drop (String.length a) (a ++ b) = b.
Proof. induction a as [|c a IH]; [now destruct b | exact IH]. Qed.

(** X8.  [get_only_the_rune_name] removes a leading [RUNA] and strips what
    follows, also when [RUNA] is the start of a longer word; a name that
    does not start with [RUNA] is returned as it is, whitespace included.
    In the first case the result is a stripped text. *)
Theorem get_only_the_rune_name_cases (rest name : string) :
  get_only_the_rune_name ("RUNA" ++ rest) = Py.strip rest
  /\ Py.strip (get_only_the_rune_name ("RUNA" ++ rest))
     = get_only_the_rune_name ("RUNA" ++ rest)
  /\ (Py.startswith "RUNA" name = false -> get_only_the_rune_name name = name).
Proof.
  assert (H : get_only_the_rune_name ("RUNA" ++ rest) = Py.strip rest).
  { unfold get_only_the_rune_name, Py.startswith.
    rewrite prefix_self. now rewrite (drop_append "RUNA" rest). }
  split; [exact H|]. split.
  - rewrite H. apply strip_idempotent.
  - intros Hno. unfold get_only_the_rune_name. now rewrite Hno.
Qed.

Lemma get_only_the_rune_name_cases_witness :
  get_only_the_rune_name ("RUNA" ++ "S  ") = Py.strip "S  "
  /\ get_only_the_rune_name " RUNA FOO " = " RUNA FOO ".
Proof.
  destruct (get_only_the_rune_name_cases "S  " " RUNA FOO ") as (H1 & _ & H3).
  split; [exact H1 | now apply H3].
Defined.

(** ** What [ask_openai] returns *)

Lemma ask_openai_loop_sound env messages : forall fuel w,
  match ask_openai_loop env fuel messages w with
  | Ret raw_response w' =>
      exists errs,
        List.length errs < fuel
        /\ times_out env (created_so_far w) errs
        /\ endpoint env (created_so_far w + List.length errs)
           = Completed raw_response
        /\ w' = after_attempts messages errs w
  | Raise e w' =>
      exists errs err,
        List.length errs < fuel
        /\ times_out env (created_so_far w) errs
        /\ endpoint env (created_so_far w + List.length errs) = Failure err
        /\ e = OpenAIError err
        /\ w' = after_attempts messages errs w
  | Retrying =>
      exists errs,
        List.length errs = fuel /\ times_out env (created_so_far w) errs
  end.
Proof.
  induction fuel as [|fuel IH]; intros w.
  - exists []. split; [reflexivity|]. intros k err Hk. destruct k; discriminate.
  - cbn [ask_openai_loop]. unfold ChatCompletion_create.
    destruct (endpoint env (created_so_far w)) as [raw|err|err] eqn:Hreply.
    + exists []. cbn [List.length]. rewrite Nat.add_0_r.
      repeat split; [lia | | exact Hreply | ].
      * intros k err Hk. destruct k; discriminate.
      * unfold after_attempts. cbn [attempts List.length]. f_equal. lia.
    + rewrite (bind_run_Ret _ _ _ _ _ (print_run _ _)).
      set (w1 := logged (Print err)
                   (mkWorld (log w ++ [Create "gpt-3.5-turbo" messages])%list
                            (confirmed_so_far w) (S (created_so_far w)))).
      specialize (IH w1).
      assert (Hcons : forall errs,
                 times_out env (created_so_far w1) errs ->
                 times_out env (created_so_far w) (err :: errs)).
      { intros errs Hto k e Hk. destruct k as [|k].
        - injection Hk as <-. now rewrite Nat.add_0_r.
        - cbn [nth_error] in Hk. specialize (Hto k e Hk).
          cbn [w1 logged created_so_far] in Hto.
          now replace (created_so_far w + S k) with (S (created_so_far w) + k)
            by lia. }
      assert (Hidx : forall errs,
                 created_so_far w1 + List.length errs
                 = created_so_far w + List.length (err :: errs)).
      { intros errs. cbn [w1 logged created_so_far List.length]. lia. }
      destruct (ask_openai_loop env fuel messages w1) as [raw w'|e w'|].
      * destruct IH as (errs & Hlen & Hto & Hend & ->).
        exists (err :: errs). rewrite <- Hidx.
        repeat split; [cbn [List.length]; lia | now apply Hcons | exact Hend |].
        unfold w1. apply after_attempts_cons.
      * destruct IH as (errs & err' & Hlen & Hto & Hend & -> & ->).
        exists (err :: errs), err'. rewrite <- Hidx.
        repeat split; [cbn [List.length]; lia | now apply Hcons | exact Hend |].
        unfold w1. apply after_attempts_cons.
      * destruct IH as (errs & Hlen & Hto).
        exists (err :: errs). split; [cbn [List.length]; lia | now apply Hcons].
    + exists [], err. cbn [List.length]. rewrite Nat.add_0_r.
      repeat split; [lia | | exact Hreply | ].
      * intros k e Hk. destruct k; discriminate.
      * unfold after_attempts. cbn [attempts List.length]. f_equal. lia.
Qed.

(** X9.  What [ask_openai] returns is a reply of the endpoint, and what it
    raises is a failure of the endpoint that is not a timeout: in both cases
    every earlier call of this request timed out, and the log holds the
    request once per call with the print of each timeout in between.  When
    the fuel runs out, every call made has timed out. *)
Theorem ask_openai_sound (env : Env) (fuel : nat) (prompt : string) (w : World) :
  (forall raw_response w',
      ask_openai env fuel prompt w = Ret raw_response w' ->
      exists errs,
        times_out env (created_so_far w) errs
        /\ endpoint env (created_so_far w + List.length errs)
           = Completed raw_response
        /\ w' = after_attempts (ask_messages prompt) errs w)
  /\ (forall e w',
        ask_openai env fuel prompt w = Raise e w' ->
        exists errs err,
          times_out env (created_so_far w) errs
          /\ endpoint env (created_so_far w + List.length errs) = Failure err
          /\ e = OpenAIError err
          /\ w' = after_attempts (ask_messages prompt) errs w)
  /\ (ask_openai env fuel prompt w = Retrying ->
      exists errs,
        List.length errs = fuel /\ times_out env (created_so_far w) errs).
Proof.
  pose proof (ask_openai_loop_sound env (ask_messages prompt) fuel w) as H.
  unfold ask_openai. fold (ask_messages prompt).
  destruct (ask_openai_loop env fuel (ask_messages prompt) w) as [r w1|e w1|].
  - split; [|split]; [|discriminate..].
    intros raw w' [= <- <-]. destruct H as (errs & _ & Hto & Hend & Hw).
    now exists errs.
  - split; [|split]; [discriminate| |discriminate].
    intros e' w' [= <- <-]. destruct H as (errs & err & _ & Hto & Hend & He & Hw).
    now exists errs, err.
  - split; [|split]; [discriminate..|]. intros _. exact H.
Qed.

Lemma ask_openai_sound_witness :
  let env :=
    mkEnv (fun _ => true)
          (fun k => match k with
                    | 0 => Timeout "t1"
                    | _ => Completed (sample_response "ok" 3)
                    end) in
  exists errs,
    times_out env 0 errs
    /\ endpoint env (0 + List.length errs) = Completed (sample_response "ok" 3)
    /\ exists errs', List.length errs' = 0 /\ times_out env 0 errs'.
Proof.
  intros env.
  destruct (ask_openai_sound env 2 "p" start) as (Hret & _ & _).
  destruct (Hret (sample_response "ok" 3)
                 (after_attempts (ask_messages "p") ["t1"] start) eq_refl)
    as (errs & Hto & Hend & _).
  exists errs. split; [exact Hto|]. split; [exact Hend|].
  destruct (ask_openai_sound env 0 "p" start) as (_ & _ & Hretry).
  exact (Hretry eq_refl).
Defined.

(** ** The clipboard *)

Lemma copied_texts_app a b :
  copied_texts (a ++ b)%list = (copied_texts a ++ copied_texts b)%list.
Proof.
  induction a as [|e a IH]; [reflexivity|].
  destruct e; cbn [app copied_texts]; now rewrite IH.
Qed.

Lemma copied_texts_attempts messages errs : copied_texts (attempts messages errs) = [].
Proof. induction errs as [|err errs IH]; [reflexivity | exact IH]. Qed.


Lemma ask_openai_run env fuel prompt errs w :
  List.length errs < fuel ->
  times_out env (created_so_far w) errs ->
  ask_openai env fuel prompt w
  = match endpoint env (created_so_far w + List.length errs) with
    | Completed raw_response =>
        Ret raw_response (after_attempts (ask_messages prompt) errs w)
    | Timeout err =>
        (print err ;;
         ask_openai_loop env (fuel - S (List.length errs)) (ask_messages prompt))
          (after_attempts (ask_messages prompt) errs w)
    | Failure err =>
        Raise (OpenAIError err) (after_attempts (ask_messages prompt) errs w)
    end.
Proof.
  intros Hfuel Hto. unfold ask_openai. fold (ask_messages prompt).
  now apply ask_openai_loop_answer.
Qed.

(** [process_alternatives] up to the reply, when the operator agrees to
    ask. *)
Lemma process_alternatives_asked env fuel p w :
  operator env (confirmed_so_far w) = true ->
  process_alternatives env fuel p w
  = (response <- ask_openai env fuel
                   (alternatives_prompt (Processment.rune_definition p)) ;;
     print ("Usage tokens: [bold blue]"
            ++ Py.str_of_int (Usage.total_tokens (Response.usage response))
            ++ "[/]") ;;
     choice <- unpack_single (Response.choices response) ;;
     print "Items:" ;;
     for_enumerate print_item 0
       (parse_response (Message.content (Choice.message choice))) tt ;;
     will_copy <- inquirer_confirm env "Copy?" true ;;
     (if will_copy then
        pyperclip_copy (create_string_from_list
                          (parse_response
                             (Message.content (Choice.message choice)))) ;;
        print ("[green]Copied![/]" ++ Py.nl)
      else ret tt) ;;
     ret (Processment.add_tokens
            (Usage.total_tokens (Response.usage response)) p))
      (asked_for_alternatives env (Processment.rune_definition p) w).
Proof.
  intros Hask. unfold process_alternatives.
  rewrite (bind_run_Ret _ _ _ _ _ (print_run _ _)).
  rewrite (bind_run_Ret _ _ _ _ _ (inquirer_confirm_run _ _ _ _)).
  cbn [logged confirmed_so_far]. rewrite Hask. reflexivity.
Qed.



(** ** Exceptions *)




















(** ** Which review a record gets *)

Lemma main_body_complete env fuel i rd total_tokens w :
  complete rd = true -> main_body env fuel i rd total_tokens w = Ret total_tokens w.
Proof. unfold complete, main_body. now intros ->. Qed.

Lemma main_body_alternatives_only env fuel i rd total_tokens w :
  truthy_list (RuneDefinition.alternatives rd) = false ->
  main_body env fuel i rd total_tokens w
  = (print ("[bold green]" ++ Py.str_of_nat i ++ "[/] -:" ++ Py.nl) ;;
     p <- process_alternatives env fuel (Processment.new rd) ;;
     add_and_print total_tokens p) w.
Proof.
  intros Halt. unfold main_body.
  cbn [Processment.new Processment.rune_definition].
  rewrite Halt. cbn [andb negb].
  rewrite !(bind_run_Ret _ _ _ _ _ (print_run _ _)).
  apply bind_ext_Ret. intros p1 w1 Hrun.
  apply process_alternatives_Ret in Hrun. destruct Hrun as [Hrd _].
  cbn [Processment.new Processment.rune_definition] in Hrd.
  rewrite Hrd, Halt. reflexivity.
Qed.

Lemma main_body_summaries_only env fuel i rd total_tokens w :
  truthy_list (RuneDefinition.alternatives rd) = true ->
  truthy_list (RuneDefinition.summaries rd) = false ->
  main_body env fuel i rd total_tokens w
  = (print ("[bold green]" ++ Py.str_of_nat i ++ "[/] -:" ++ Py.nl) ;;
     p <- process_summaries env fuel (Processment.new rd) ;;
     add_and_print total_tokens p) w.
Proof.
  intros Halt Hsum. unfold main_body.
  cbn [Processment.new Processment.rune_definition].
  rewrite Halt, Hsum. cbn [andb negb].
  rewrite !(bind_run_Ret _ _ _ _ _ (print_run _ _)).
  unfold bind at 1. unfold ret at 1.
  cbn [Processment.new Processment.rune_definition].
  rewrite ?Halt, ?Hsum. reflexivity.
Qed.

(** X11.  The loop of [main] gives a record one review at most.  A record
    whose [alternatives] are missing or empty gets the alternatives review
    and no summaries review; a record with alternatives whose [summaries]
    are missing or empty gets the summaries review and no alternatives
    review.  After the review the tokens of the record are added to the
    total and the total is printed. *)
Theorem main_body_dispatch
    (env : Env) (fuel i : nat) (rd : RuneDefinition.t) (total_tokens : Z)
    (w : World) :
  (truthy_list (RuneDefinition.alternatives rd) = false ->
   main_body env fuel i rd total_tokens w
   = (print ("[bold green]" ++ Py.str_of_nat i ++ "[/] -:" ++ Py.nl) ;;
      p <- process_alternatives env fuel (Processment.new rd) ;;
      add_and_print total_tokens p) w)
  /\ (truthy_list (RuneDefinition.alternatives rd) = true ->
      truthy_list (RuneDefinition.summaries rd) = false ->
      main_body env fuel i rd total_tokens w
      = (print ("[bold green]" ++ Py.str_of_nat i ++ "[/] -:" ++ Py.nl) ;;
         p <- process_summaries env fuel (Processment.new rd) ;;
         add_and_print total_tokens p) w).
Proof.
  split.
  - apply main_body_alternatives_only.
  - apply main_body_summaries_only.
Qed.

Lemma main_body_dispatch_witness :
  let env := mkEnv (fun _ => false) (fun _ => Failure "unused") in
  let empty := RuneDefinition.mk "RUNA FOO" "d" RuneType.normal (Some []) None in
  main_body env 1 0 empty 0 start
  = (print ("[bold green]" ++ Py.str_of_nat 0 ++ "[/] -:" ++ Py.nl) ;;
     p <- process_alternatives env 1 (Processment.new empty) ;;
     add_and_print 0 p) start
  /\ main_body env 1 0 rune_without_summaries 0 start
     = (print ("[bold green]" ++ Py.str_of_nat 0 ++ "[/] -:" ++ Py.nl) ;;
        p <- process_summaries env 1 (Processment.new rune_without_summaries) ;;
        add_and_print 0 p) start.
Proof.
  intros env empty. split.
  - exact (proj1 (main_body_dispatch env 1 0 empty 0 start) eq_refl).
  - exact (proj2 (main_body_dispatch env 1 0 rune_without_summaries 0 start)
                 eq_refl eq_refl).
Defined.

(** X12.  A run over records that are all complete asks nothing, calls
    nothing and copies nothing: it prints the number of records and a total
    of zero. *)
Theorem main_on_complete_records
    (env : Env) (fuel : nat) (rune_definitions : list RuneDefinition.t)
    (w : World) :
  forallb complete rune_definitions = true ->
  main env fuel rune_definitions w
  = Ret 0%Z
        (mkWorld
           (log w
            ++ [Print (Py.str_of_nat (List.length rune_definitions) ++ " loaded");
                Print "tokens: [bold blue]0[/]"])%list
           (confirmed_so_far w) (created_so_far w)).
Proof.
  intros Hall. unfold main.
  rewrite (bind_run_Ret _ _ _ _ _ (print_run _ _)).
  assert (Hloop : forall rds i w0,
             forallb complete rds = true ->
             for_enumerate (main_body env fuel) i rds 0%Z w0 = Ret 0%Z w0).
  { induction rds as [|rd rds IH]; intros i w0 H; [reflexivity|].
    cbn [forallb] in H. apply andb_prop in H. destruct H as [Hrd Hrds].
    cbn [for_enumerate].
    rewrite (bind_run_Ret _ _ _ _ _ (main_body_complete env fuel i rd 0 w0 Hrd)).
    now apply IH. }
  rewrite (bind_run_Ret _ _ _ _ _ (Hloop rune_definitions 0 _ Hall)).
  rewrite (bind_run_Ret _ _ _ _ _ (print_run _ _)).
  unfold ret, logged. cbn [log confirmed_so_far created_so_far].
  now rewrite <- app_assoc.
Qed.

Lemma main_on_complete_records_witness :
  let env := mkEnv (fun _ => true) (fun _ => Failure "unused") in
  let done := RuneDefinition.mk "RUNA FOO" "d" RuneType.normal
                (Some ["a"]) (Some ["s"]) in
  main env 1 [done; done] start
  = Ret 0%Z (mkWorld [Print "2 loaded"; Print "tokens: [bold blue]0[/]"] 0 0).
Proof.
  intros env done.
  exact (main_on_complete_records env 1 [done; done] start eq_refl).
Defined.

(** ** Declining *)


Lemma copied_texts_logged_print text w :
  copied_texts (log (logged (Print text) w)) = copied_texts (log w).
Proof.
  cbn [logged log]. rewrite copied_texts_app. cbn. now rewrite app_nil_r.
Qed.

Lemma copied_texts_answered env message default w :
  copied_texts (log (answered env message default w)) = copied_texts (log w).
Proof.
  cbn [answered log]. rewrite copied_texts_app. cbn. now rewrite app_nil_r.
Qed.






(** ** Runs that end with an exception *)

Lemma unpack_single_Raise {A} (xs : list A) (w : World) :
  List.length xs <> 1 -> unpack_single xs w = Raise ValueError w.
Proof.
  destruct xs as [|x [|y xs]]; cbn; intros H; [reflexivity | lia | reflexivity].
Qed.

Lemma main_raises_from_alternatives env fuel rd rest w e w1 :
  truthy_list (RuneDefinition.alternatives rd) = false ->
  process_alternatives env fuel (Processment.new rd)
    (logged (Print ("[bold green]" ++ Py.str_of_nat 0 ++ "[/] -:" ++ Py.nl))
       (logged (Print (Py.str_of_nat (List.length (rd :: rest)) ++ " loaded")) w))
  = Raise e w1 ->
  main env fuel (rd :: rest) w = Raise e w1.
Proof.
  intros Halt Hraise. unfold main.
  rewrite (bind_run_Ret _ _ _ _ _ (print_run _ _)).
  apply bind_run_Raise, for_enumerate_Raise.
  rewrite main_body_alternatives_only by exact Halt.
  rewrite (bind_run_Ret _ _ _ _ _ (print_run _ _)).
  now apply bind_run_Raise.
Qed.

Lemma copied_texts_after_attempts messages errs w :
  copied_texts (log (after_attempts messages errs w)) = copied_texts (log w).
Proof.
  cbn [after_attempts log].
  now rewrite copied_texts_app, copied_texts_attempts, app_nil_r.
Qed.

Lemma copied_texts_asked_for_alternatives env rd w :
  copied_texts (log (asked_for_alternatives env rd w)) = copied_texts (log w).
Proof.
  unfold asked_for_alternatives.
  now rewrite copied_texts_answered, copied_texts_logged_print.
Qed.

(** X15.  When the first record needs alternatives, the operator agrees to
    ask and the endpoint, after any timeouts, fails with another error, the
    run ends there with that error, whatever records follow: the clipboard
    is not written and no total is printed. *)
Theorem main_aborts_on_endpoint_failure
    (env : Env) (fuel : nat) (rd : RuneDefinition.t)
    (rest : list RuneDefinition.t) (w : World)
    (errs : list string) (err : string) :
  truthy_list (RuneDefinition.alternatives rd) = false ->
  operator env (confirmed_so_far w) = true ->
  List.length errs < fuel ->
  times_out env (created_so_far w) errs ->
  endpoint env (created_so_far w + List.length errs) = Failure err ->
  exists w',
    main env fuel (rd :: rest) w = Raise (OpenAIError err) w'
    /\ created_so_far w' = created_so_far w + S (List.length errs)
    /\ copied_texts (log w') = copied_texts (log w).
Proof.
  intros Halt Hask Hfuel Hto Hreply.
  eexists. split; [|split].
  - apply main_raises_from_alternatives; [exact Halt|].
    rewrite process_alternatives_asked by exact Hask.
    apply bind_run_Raise.
    rewrite (ask_openai_run env fuel _ errs) by assumption.
    cbn [asked_for_alternatives answered logged created_so_far].
    rewrite Hreply. reflexivity.
  - reflexivity.
  - rewrite copied_texts_after_attempts.
    change (copied_texts
              (log (asked_for_alternatives env
                      (Processment.rune_definition (Processment.new rd))
                      (logged (Print ("[bold green]" ++ Py.str_of_nat 0
                                      ++ "[/] -:" ++ Py.nl))
                         (logged (Print (Py.str_of_nat
                                           (List.length (rd :: rest))
                                         ++ " loaded")) w))))
            = copied_texts (log w)).
    now rewrite copied_texts_asked_for_alternatives, !copied_texts_logged_print.
Qed.

Lemma main_aborts_on_endpoint_failure_witness :
  let env := mkEnv (fun _ => true)
                   (fun k => match k with
                             | 0 => Timeout "t1"
                             | _ => Failure "quota"
                             end) in
  exists w',
    main env 2 [rune_without_alternatives; rune_without_summaries] start
    = Raise (OpenAIError "quota") w'
    /\ created_so_far w' = created_so_far start + 2
    /\ copied_texts (log w') = copied_texts (log start).
Proof.
  intros env.
  refine (main_aborts_on_endpoint_failure
            env 2 rune_without_alternatives [rune_without_summaries] start
            ["t1"] "quota" eq_refl eq_refl _ _ eq_refl).
  - cbn. lia.
  - intros k err Hk. destruct k as [|k]; cbn in Hk.
    + now injection Hk as <-.
    + destruct k; discriminate.
Defined.

(** X16.  When the first record needs alternatives, the operator agrees to
    ask and the endpoint replies with no choice or with several, the run
    ends with [ValueError] at the unpacking of the choices, whatever records
    follow: the usage is printed, the clipboard is not written. *)
Theorem main_aborts_without_single_choice
    (env : Env) (fuel : nat) (rd : RuneDefinition.t)
    (rest : list RuneDefinition.t) (w : World)
    (errs : list string) (response : Response.t) :
  truthy_list (RuneDefinition.alternatives rd) = false ->
  operator env (confirmed_so_far w) = true ->
  List.length errs < fuel ->
  times_out env (created_so_far w) errs ->
  endpoint env (created_so_far w + List.length errs) = Completed response ->
  List.length (Response.choices response) <> 1 ->
  exists w',
    main env fuel (rd :: rest) w = Raise ValueError w'
    /\ created_so_far w' = created_so_far w + S (List.length errs)
    /\ copied_texts (log w') = copied_texts (log w).
Proof.
  intros Halt Hask Hfuel Hto Hreply Hchoices.
  eexists. split; [|split].
  - apply main_raises_from_alternatives; [exact Halt|].
    rewrite process_alternatives_asked by exact Hask.
    assert (Hrun : forall w0,
               created_so_far w0 = created_so_far w ->
               ask_openai env fuel
                 (alternatives_prompt
                    (Processment.rune_definition (Processment.new rd))) w0
               = Ret response
                     (after_attempts
                        (ask_messages
                           (alternatives_prompt
                              (Processment.rune_definition (Processment.new rd))))
                        errs w0)).
    { intros w0 Hw0.
      rewrite (ask_openai_run env fuel _ errs) by (rewrite ?Hw0; assumption).
      now rewrite Hw0, Hreply. }
    match goal with
    | |- bind (ask_openai _ _ _) _ ?w0 = _ =>
        rewrite (bind_run_Ret _ _ _ _ _ (Hrun w0 eq_refl))
    end.
    rewrite (bind_run_Ret _ _ _ _ _ (print_run _ _)).
    apply bind_run_Raise. now apply unpack_single_Raise.
  - reflexivity.
  - rewrite copied_texts_logged_print, copied_texts_after_attempts.
    now rewrite copied_texts_asked_for_alternatives, !copied_texts_logged_print.
Qed.

Lemma main_aborts_without_single_choice_witness :
  let env :=
    mkEnv (fun _ => true)
          (fun _ => Completed
                      (Response.mk "chatcmpl-2" "chat.completion" 0
                         "gpt-3.5-turbo" (Usage.mk 1 2 3) [])) in
  exists w',
    main env 1 [rune_without_alternatives; rune_without_summaries] start
    = Raise ValueError w'
    /\ created_so_far w' = created_so_far start + 1
    /\ copied_texts (log w') = copied_texts (log start).
Proof.
  intros env.
  refine (main_aborts_without_single_choice
            env 1 rune_without_alternatives [rune_without_summaries] start
            [] _ eq_refl eq_refl _ _ eq_refl _).
  - cbn. lia.
  - intros k err Hk. destruct k; discriminate.
  - cbn. lia.
Defined.

(** ** Further concrete instances *)

Lemma parse_response_empty_iff_blank_witness :
  parse_response (" " ++ Py.nl ++ "  ") = [].
Proof.
  apply (proj2 (parse_response_empty_iff_blank (" " ++ Py.nl ++ "  "))).
  reflexivity.
Defined.

Lemma parse_response_items_clean_witness :
  Py.strip "dos" = "dos" /\ mentions Py.LF "dos" = false.
Proof.
  apply (proj1 (parse_response_items_clean ("1. uno" ++ Py.nl ++ " 2. dos "))).
  vm_compute. right. now left.
Defined.

Lemma create_string_from_list_empty_iff_witness :
  create_string_from_list [] = "".
Proof. now apply (proj2 (create_string_from_list_empty_iff [])). Defined.
